(** * mongoengine.fields: the field-type layer, embedded in Rocq

    The development follows [src/mongoengine/fields.py].  Python values are
    an inductive type, exceptions are an error monad, the interpreter's
    [isinstance] is a function over a small type lattice, and the
    descriptor read of [ReferenceField] threads the owning instance's
    [_data] dictionary and the storage handle's query log explicitly. *)

From Stdlib Require Import ZArith NArith List String Ascii Bool Lia Floats.
From stdpp Require Import base option list gmap strings.

#[local] Set Warnings "-register-all".
Local Open Scope string_scope.
Local Open Scope Z_scope.

(** ** Python values *)

(** A class object, as far as the fields look at it: its name, the names on
    its method-resolution order (itself first), and the storage collection
    recorded in [_meta['collection']]. *)
Record pyclass := PyClass {
  cls_name : string;
  cls_mro : list string;
  cls_collection : string
}.

(** Text is a sequence of code points; a byte string ([str]) has one ascii
    character per byte. *)
Definition codes := list N.

Inductive pyval :=
| PyNone
| PyBool (b : bool)
| PyInt (n : Z)                                  (* int and long *)
| PyFloat (x : float)                            (* IEEE binary64 *)
| PyStr (s : string)                             (* byte string *)
| PyUnicode (u : codes)
| PyDateTime (t : Z)                             (* datetime.datetime *)
| PyList (items : list pyval)
| PyTuple (items : list pyval)
| PyDict (entries : list (pyval * pyval))
| PyObjectId (oid : string)                      (* pymongo.objectid.ObjectId *)
| PyDBRef (collection : string) (id : pyval)     (* pymongo.dbref.DBRef *)
| PyDoc (cls : pyclass) (data : list (string * pyval)).

(** The types [isinstance] is asked about. *)
Inductive pytype :=
| TNoneType | TBool | TInt | TLong | TFloat | TStr | TUnicode | TDateTime
| TList | TTuple | TDict | TObjectId | TDBRef
| TClass (c : pyclass).

Definition sys_maxint : Z := 2 ^ 63 - 1.

Definition type_of (v : pyval) : pytype :=
  match v with
  | PyNone => TNoneType
  | PyBool _ => TBool
  | PyInt n => if (- sys_maxint - 1 <=? n) && (n <=? sys_maxint) then TInt else TLong
  | PyFloat _ => TFloat
  | PyStr _ => TStr
  | PyUnicode _ => TUnicode
  | PyDateTime _ => TDateTime
  | PyList _ => TList
  | PyTuple _ => TTuple
  | PyDict _ => TDict
  | PyObjectId _ => TObjectId
  | PyDBRef _ _ => TDBRef
  | PyDoc c _ => TClass c
  end.

Definition builtin_tag (t : pytype) : nat :=
  match t with
  | TNoneType => 0 | TBool => 1 | TInt => 2 | TLong => 3 | TFloat => 4
  | TStr => 5 | TUnicode => 6 | TDateTime => 7 | TList => 8 | TTuple => 9
  | TDict => 10 | TObjectId => 11 | TDBRef => 12 | TClass _ => 13
  end%nat.

(** [issubclass t u]: [bool] derives from [int]; a user class derives from
    every class on its method-resolution order. *)
Definition issubclass (t u : pytype) : bool :=
  match t, u with
  | TClass c, TClass d => bool_decide (cls_name d ∈ cls_mro c)
  | TClass _, _ | _, TClass _ => false
  | TBool, TInt => true
  | _, _ => Nat.eqb (builtin_tag t) (builtin_tag u)
  end.

Definition isinstance (v : pyval) (ts : list pytype) : bool :=
  existsb (issubclass (type_of v)) ts.

(** ** Exceptions *)

Inductive exn :=
| AssertionError
| ValidationError (message : string)
| TypeError
| ValueError
| OverflowError
| UnicodeDecodeError
| AttributeError
| InvalidId.

Inductive result (A : Type) :=
| Ok (a : A)
| Raise (e : exn).
Arguments Ok {A} a.
Arguments Raise {A} e.

Definition bind {A B} (m : result A) (k : A -> result B) : result B :=
  match m with
  | Ok a => k a
  | Raise e => Raise e
  end.

Declare Scope py_scope.
Delimit Scope py_scope with py.
Notation "x <- m ;; k" := (bind m (fun x => k))
  (at level 100, m at next level, right associativity) : py_scope.
Notation "m ;;; k" := (bind m (fun _ => k))
  (at level 100, right associativity) : py_scope.
Local Open Scope py_scope.

(** [[f(item) for item in items]]: left to right, the first exception ends
    the comprehension. *)
Fixpoint comprehension {A B} (f : A -> result B) (items : list A) : result (list B) :=
  match items with
  | [] => Ok []
  | item :: rest =>
      y <- f item ;;
      ys <- comprehension f rest ;;
      Ok (y :: ys)
  end.

(** [try: body  except: raise replacement]: a bare [except] catches every
    exception, whatever its class. *)
Definition try_except_raise {A} (body : result A) (replacement : exn) : result A :=
  match body with
  | Ok a => Ok a
  | Raise _ => Raise replacement
  end.

Definition assert (b : bool) : result unit :=
  if b then Ok tt else Raise AssertionError.

Definition raise_if (b : bool) (e : exn) : result unit :=
  if b then Raise e else Ok tt.

(** ** The interpreter's built-ins *)

Definition codes_of_bytes (s : string) : codes :=
  map N_of_ascii (list_ascii_of_string s).

Definition is_ascii (s : string) : bool :=
  forallb (fun c => N.ltb c 128) (codes_of_bytes s).

(** The characters of a text value, [None] for any other kind. *)
Definition text_of (v : pyval) : option codes :=
  match v with
  | PyStr s => Some (codes_of_bytes s)
  | PyUnicode u => Some u
  | _ => None
  end.

(** [len(v)] *)
Definition len (v : pyval) : result Z :=
  match v with
  | PyStr s => Ok (Z.of_nat (String.length s))
  | PyUnicode u => Ok (Z.of_nat (List.length u))
  | PyList l | PyTuple l => Ok (Z.of_nat (List.length l))
  | PyDict d => Ok (Z.of_nat (List.length d))
  | _ => Raise TypeError
  end.

(** The integer a [bool], [int] or [long] stands for in a comparison. *)
Definition int_value (v : pyval) : Z :=
  match v with
  | PyBool b => Z.b2z b
  | PyInt n => n
  | _ => 0
  end.

Definition float_value (v : pyval) : float :=
  match v with
  | PyFloat x => x
  | _ => 0%float
  end.

(** [int(x)] on a float truncates toward zero; it has no integer for a NaN
    or an infinity. *)
Definition int_of_float (x : float) : result Z :=
  match Prim2SF x with
  | S754_zero _ => Ok 0
  | S754_infinity _ => Raise OverflowError
  | S754_nan => Raise ValueError
  | S754_finite s m e =>
      let magnitude := if 0 <=? e then Z.pos m * 2 ^ e else Z.pos m / 2 ^ (- e) in
      Ok (if s then - magnitude else magnitude)
  end.

(** What the embedding takes from its surroundings: the interpreter's
    numeral parsing and printing, the behaviour of instances of user classes
    under [bool] and [iter], and the collaborators of [fields.py] that live
    in other modules ([Document._from_son], [Document.to_mongo],
    [pymongo.objectid.ObjectId]). *)
Class Host := {
  (** [int(s)] for text [s]: [ValueError] unless [s] is a numeral. *)
  int_of_text : codes -> result Z;
  (** [float(s)] for text [s]. *)
  float_of_text : codes -> result float;
  (** [float(n)] for an integer: [OverflowError] out of range. *)
  float_of_int : Z -> result float;
  (** [unicode(x)] for [x] that is not text. *)
  unicode_of_object : pyval -> result codes;
  (** [bool(x)] for an instance of a user class: what its [__nonzero__] or
      [__len__] answers, or the exception it raises. *)
  instance_truth : pyclass -> list (string * pyval) -> result bool;
  (** Iteration over an instance of a user class. *)
  instance_iter : pyclass -> list (string * pyval) -> result (list pyval);
  (** [cls._from_son(son)]: build an instance from a stored mapping. *)
  from_son : pyclass -> pyval -> result (pyclass * list (string * pyval));
  (** [cls.to_mongo(value)]: the stored mapping of a document. *)
  document_to_mongo : pyclass -> pyval -> result pyval;
  (** [pymongo.objectid.ObjectId(x)] for [x] that is not an [ObjectId]. *)
  ObjectId_new : pyval -> result string
}.

Section Builtins.
Context `{!Host}.

(** [unicode(x)]: a byte string is decoded with the default (ascii)
    codec. *)
Definition py_unicode (v : pyval) : result pyval :=
  match v with
  | PyUnicode u => Ok (PyUnicode u)
  | PyStr s =>
      if is_ascii s then Ok (PyUnicode (codes_of_bytes s))
      else Raise UnicodeDecodeError
  | _ => u <- unicode_of_object v ;; Ok (PyUnicode u)
  end.

(** [int(x)] *)
Definition py_int (v : pyval) : result pyval :=
  match v with
  | PyBool b => Ok (PyInt (Z.b2z b))
  | PyInt n => Ok (PyInt n)
  | PyFloat x => n <- int_of_float x ;; Ok (PyInt n)
  | PyStr s => n <- int_of_text (codes_of_bytes s) ;; Ok (PyInt n)
  | PyUnicode u => n <- int_of_text u ;; Ok (PyInt n)
  | _ => Raise TypeError
  end.

(** [float(x)] *)
Definition py_float (v : pyval) : result pyval :=
  match v with
  | PyFloat x => Ok (PyFloat x)
  | PyBool b => x <- float_of_int (Z.b2z b) ;; Ok (PyFloat x)
  | PyInt n => x <- float_of_int n ;; Ok (PyFloat x)
  | PyStr s => x <- float_of_text (codes_of_bytes s) ;; Ok (PyFloat x)
  | PyUnicode u => x <- float_of_text u ;; Ok (PyFloat x)
  | _ => Raise TypeError
  end.

(** [bool(x)] *)
Definition py_bool (v : pyval) : result bool :=
  match v with
  | PyNone => Ok false
  | PyBool b => Ok b
  | PyInt n => Ok (negb (n =? 0))
  | PyFloat x => Ok (negb (PrimFloat.eqb x 0))
  | PyStr s => Ok (negb (Nat.eqb (String.length s) 0))
  | PyUnicode u => Ok (negb (Nat.eqb (List.length u) 0))
  | PyList l | PyTuple l => Ok (negb (Nat.eqb (List.length l) 0))
  | PyDict d => Ok (negb (Nat.eqb (List.length d) 0))
  | PyDateTime _ | PyObjectId _ | PyDBRef _ _ => Ok true
  | PyDoc c d => instance_truth c d
  end.

(** [for item in x]: the items [x] yields, [TypeError] when [x] is not
    iterable. *)
Definition py_iter (v : pyval) : result (list pyval) :=
  match v with
  | PyList l | PyTuple l => Ok l
  | PyStr s => Ok (map (fun c => PyStr (String c EmptyString)) (list_ascii_of_string s))
  | PyUnicode u => Ok (map (fun c => PyUnicode [c]) u)
  | PyDict d => Ok (map fst d)
  | PyDoc c d => instance_iter c d
  | _ => Raise TypeError
  end.

End Builtins.

(** ** Field types *)

(** A compiled regular expression, as far as [validate] uses it: whether
    [regex.match(value)] finds a match at the start of the text. *)
Definition pattern := codes -> bool.

(** The field classes of [fields.py] with the attributes their constructors
    store. *)
Inductive field :=
| StringField (regex : option pattern) (max_length : option Z)
| IntField (min_value max_value : option Z)
| FloatField (min_value max_value : option float)
| BooleanField
| DateTimeField
| EmbeddedDocumentField (document : pyclass)
| ListField (fld : field)
| ReferenceField (document_type : pyclass).

(** The scalar variants. *)
Definition is_scalar (f : field) : bool :=
  match f with
  | StringField _ _ | IntField _ _ | FloatField _ _ | BooleanField | DateTimeField => true
  | _ => false
  end.

Definition is_None (v : pyval) : bool :=
  match v with
  | PyNone => true
  | _ => false
  end.

Fixpoint assoc (k : string) (d : list (string * pyval)) : option pyval :=
  match d with
  | [] => None
  | (k', v) :: rest => if String.eqb k k' then Some v else assoc k rest
  end.

(** [x.id]: the identifier slot of a document instance, the [id] property
    of a [DBRef]; other objects have no such attribute. *)
Definition getattr_id (v : pyval) : result pyval :=
  match v with
  | PyDoc _ data =>
      match assoc "id" data with
      | Some i => Ok i
      | None => Raise AttributeError
      end
  | PyDBRef _ i => Ok i
  | _ => Raise AttributeError
  end.

Definition too_long_msg := "String value is too long".
Definition no_match_msg := "String value did not match validation regex".
Definition int_too_small_msg := "Integer value is too small".
Definition int_too_large_msg := "Integer value is too large".
Definition float_too_small_msg := "Float value is too small".
Definition float_too_large_msg := "Float value is too large".
Definition bad_embedded_msg :=
  "Invalid embedded document instance provided to an EmbeddedDocumentField".
Definition not_a_list_msg := "Only lists and tuples may be used in a list field".
Definition bad_items_msg := "All items in a list field must be of the specified type".
Definition unsaved_msg :=
  "You can only reference documents once they have been saved to the database".

(** Modelled from the spec: [BaseField.to_python] is defined in [base.py],
    which is not among the sources; the timestamp and reference fields
    inherit it.  The spec gives them no coercion of their own, so the value
    passes through. *)
Definition BaseField_to_python (value : pyval) : result pyval := Ok value.

(** Modelled from the spec: [BaseField.to_mongo] is defined in [base.py],
    which is not among the sources; every scalar field inherits it.  Section
    4.2: the storage encoding of a scalar kind is the identity. *)
Definition BaseField_to_mongo (value : pyval) : result pyval := Ok value.

Section Fields.
Context `{!Host}.

Fixpoint validate (self : field) (value : pyval) : result unit :=
  match self with
  | StringField regex max_length =>
      assert (isinstance value [TStr; TUnicode]) ;;;
      (match max_length with
       | Some m => n <- len value ;; raise_if (n >? m) (ValidationError too_long_msg)
       | None => Ok tt
       end) ;;;
      match regex, text_of value with
      | Some re, Some cs => raise_if (negb (re cs)) (ValidationError no_match_msg)
      | Some _, None => Raise TypeError
      | None, _ => Ok tt
      end
  | IntField min_value max_value =>
      assert (isinstance value [TInt; TLong]) ;;;
      (match min_value with
       | Some m => raise_if (int_value value <? m) (ValidationError int_too_small_msg)
       | None => Ok tt
       end) ;;;
      match max_value with
      | Some m => raise_if (int_value value >? m) (ValidationError int_too_large_msg)
      | None => Ok tt
      end
  | FloatField min_value max_value =>
      assert (isinstance value [TFloat]) ;;;
      (match min_value with
       | Some m =>
           raise_if (PrimFloat.ltb (float_value value) m)
                    (ValidationError float_too_small_msg)
       | None => Ok tt
       end) ;;;
      match max_value with
      | Some m =>
          raise_if (PrimFloat.ltb m (float_value value))
                   (ValidationError float_too_large_msg)
      | None => Ok tt
      end
  | BooleanField => assert (isinstance value [TBool])
  | DateTimeField => assert (isinstance value [TDateTime])
  | EmbeddedDocumentField document =>
      raise_if (negb (isinstance value [TClass document]))
               (ValidationError bad_embedded_msg)
  | ListField fld =>
      raise_if (negb (isinstance value [TList; TTuple]))
               (ValidationError not_a_list_msg) ;;;
      try_except_raise
        (items <- py_iter value ;;
         comprehension (validate fld) items ;;;
         Ok tt)
        (ValidationError bad_items_msg)
  | ReferenceField document_type =>
      assert (isinstance value [TClass document_type; TDBRef])
  end.

Fixpoint to_python (self : field) (value : pyval) : result pyval :=
  match self with
  | StringField _ _ => py_unicode value
  | IntField _ _ => py_int value
  | FloatField _ _ => py_float value
  | BooleanField => b <- py_bool value ;; Ok (PyBool b)
  | DateTimeField => BaseField_to_python value
  | EmbeddedDocumentField document =>
      if negb (isinstance value [TClass document])
      then inst <- from_son document value ;; Ok (PyDoc (fst inst) (snd inst))
      else Ok value
  | ListField fld =>
      items <- py_iter value ;;
      converted <- comprehension (to_python fld) items ;;
      Ok (PyList converted)
  | ReferenceField _ => BaseField_to_python value
  end.

Definition ReferenceField_to_mongo (document_type : pyclass) (document : pyval)
  : result pyval :=
  id_ <- (if isinstance document [TStr; TUnicode; TObjectId]
          then Ok document
          else
            i <- getattr_id document ;;
            raise_if (is_None i) (ValidationError unsaved_msg) ;;;
            Ok i) ;;
  id_ <- (if negb (isinstance id_ [TObjectId])
          then oid <- ObjectId_new id_ ;; Ok (PyObjectId oid)
          else Ok id_) ;;
  let collection := cls_collection document_type in
  Ok (PyDBRef collection id_).

Fixpoint to_mongo (self : field) (value : pyval) : result pyval :=
  match self with
  | StringField _ _ | IntField _ _ | FloatField _ _ | BooleanField | DateTimeField =>
      BaseField_to_mongo value
  | EmbeddedDocumentField document => document_to_mongo document value
  | ListField fld =>
      items <- py_iter value ;;
      encoded <- comprehension (to_mongo fld) items ;;
      Ok (PyList encoded)
  | ReferenceField document_type => ReferenceField_to_mongo document_type value
  end.

End Fields.

(** ** The descriptor read of a reference field *)

(** The storage handle returned by [_get_db()]: [dereference] maps a
    reference token to the stored mapping, [PyNone] when nothing is found. *)
Definition database := pyval -> pyval.

(** The state a read works on: the owning instance's [_data] dictionary and
    the tokens the storage handle was asked to dereference, oldest first. *)
Record world := World {
  data : gmap string pyval;
  lookups : list pyval
}.

(** What a descriptor hands back: the field itself on class access, a value
    on instance access. *)
Inductive got :=
| GotField (f : field)
| GotValue (v : pyval).

(** [d.get(k)] on a dictionary: [None] for a missing key. *)
Definition dict_get (d : gmap string pyval) (k : string) : pyval :=
  default PyNone (d !! k).

(** Modelled from the spec: [BaseField.__get__] is defined in [base.py],
    which is not among the sources.  Section 2: a document instance holds a
    mapping from field name to current value, and a read yields the value
    the slot holds; section 4.5: while the slot still holds an unresolved
    reference token the read yields an absent value. *)
Definition BaseField_get (name : string) (w : world) : pyval :=
  let value := dict_get (data w) name in
  if isinstance value [TDBRef] then PyNone else value.

Section Descriptor.
Context `{!Host}.

(** Lines 201-209 of [ReferenceField.__get__]: the access through an
    instance. *)
Definition ReferenceField_get_instance
    (db : database) (name : string) (document_type : pyclass) (w : world)
  : result pyval * world :=
  let value := dict_get (data w) name in
  if isinstance value [TDBRef] then
    let found := db value in
    let w := World (data w) (lookups w ++ [value]) in
    if negb (is_None found) then
      match from_son document_type found with
      | Ok inst =>
          let w := World (<[name := PyDoc (fst inst) (snd inst)]> (data w)) (lookups w) in
          (Ok (BaseField_get name w), w)
      | Raise e => (Raise e, w)
      end
    else (Ok (BaseField_get name w), w)
  else (Ok (BaseField_get name w), w).

Definition ReferenceField_get
    (db : database) (name : string) (document_type : pyclass) (instance : option world)
  : result got * option world :=
  match instance with
  | None => (Ok (GotField (ReferenceField document_type)), None)
  | Some w =>
      let '(r, w') := ReferenceField_get_instance db name document_type w in
      (v <- r ;; Ok (GotValue v), Some w')
  end.

(** Successive reads of the same attribute, one per storage handle in
    [dbs]: the results in order and the final state. *)
Fixpoint reads (dbs : list database) (name : string) (document_type : pyclass)
    (instance : option world) : list (result got) * option world :=
  match dbs with
  | [] => ([], instance)
  | db :: rest =>
      let '(r, instance') := ReferenceField_get db name document_type instance in
      let '(rs, final) := reads rest name document_type instance' in
      (r :: rs, final)
  end.

End Descriptor.

(** ** A host for the examples *)

Fixpoint digits_value (acc : Z) (cs : codes) : result Z :=
  match cs with
  | [] => Ok acc
  | c :: rest =>
      if (48 <=? c)%N && (c <=? 57)%N
      then digits_value (10 * acc + Z.of_N (c - 48)) rest
      else Raise ValueError
  end.

Definition decimal_of_text (cs : codes) : result Z :=
  match cs with
  | [] | [45%N] => Raise ValueError
  | 45%N :: ds => n <- digits_value 0 ds ;; Ok (- n)
  | _ => digits_value 0 cs
  end.

Fixpoint fields_of_mapping (entries : list (pyval * pyval)) : list (string * pyval) :=
  match entries with
  | [] => []
  | (PyStr k, v) :: rest => (k, v) :: fields_of_mapping rest
  | _ :: rest => fields_of_mapping rest
  end.

(** One host among many, small enough to compute with: integer numerals are
    decimal digits with an optional minus sign, no text is a float numeral,
    integers below 2^53 in magnitude convert to floats, user-class instances
    are true and not iterable, a document is built from the text keys of a
    stored mapping, and an [ObjectId] is made from a twelve-byte string.
    The theorems hold for every host; this one only feeds the examples. *)
Definition sample_host : Host := {|
  int_of_text := decimal_of_text;
  float_of_text := fun _ => Raise ValueError;
  float_of_int := fun n =>
    if (Z.abs n <? 2 ^ 53) then
      Ok (if n <? 0 then PrimFloat.opp (PrimFloat.of_uint63 (Uint63.of_Z (- n)))
          else PrimFloat.of_uint63 (Uint63.of_Z n))
    else Raise OverflowError;
  unicode_of_object := fun v =>
    match v with
    | PyNone => Ok (codes_of_bytes "None")
    | PyBool true => Ok (codes_of_bytes "True")
    | PyBool false => Ok (codes_of_bytes "False")
    | _ => Ok (codes_of_bytes "<object>")
    end;
  instance_truth := fun _ _ => Ok true;
  instance_iter := fun _ _ => Raise TypeError;
  from_son := fun c son =>
    match son with
    | PyDict entries => Ok (c, fields_of_mapping entries)
    | _ => Raise TypeError
    end;
  document_to_mongo := fun _ v =>
    match v with
    | PyDoc _ d => Ok (PyDict (map (fun kv => (PyStr (fst kv), snd kv)) d))
    | _ => Raise TypeError
    end;
  ObjectId_new := fun v =>
    match v with
    | PyStr s => if Nat.eqb (String.length s) 12 then Ok s else Raise InvalidId
    | _ => Raise TypeError
    end
|}.

Definition Author : pyclass := PyClass "Author" ["Author"; "Document"] "authors".

Definition sample_oid : string := "0123456789ab".

Definition sample_token : pyval := PyDBRef "authors" (PyObjectId sample_oid).

Definition ann_mapping : pyval :=
  PyDict [(PyStr "id", PyObjectId sample_oid); (PyStr "name", PyStr "Ann")].

Definition ann : pyval :=
  PyDoc Author [("id", PyObjectId sample_oid); ("name", PyStr "Ann")].

(** A handle that stores one author, and one that stores nothing. *)
Definition sample_db : database :=
  fun ref =>
    match ref with
    | PyDBRef c (PyObjectId oid) =>
        if String.eqb c "authors" && String.eqb oid sample_oid then ann_mapping else PyNone
    | _ => PyNone
    end.

Definition empty_db : database := fun _ => PyNone.

(** A book whose [author] slot holds a token that was never resolved. *)
Definition sample_book : world :=
  World (<["author" := sample_token]> (<["title" := PyStr "Dune"]> ∅)) [].

(** The single byte 0xE9. *)
Definition e_acute : string := String (ascii_of_nat 233) EmptyString.

(** The pattern [h], matched at the start of the text. *)
Definition starts_with_h : pattern :=
  fun cs => match cs with
            | c :: _ => (c =? 104)%N
            | [] => false
            end.

(** ** Vocabulary of the properties *)

(** The types each scalar field's [validate] asserts its value to be an
    instance of. *)
Definition canonical_types (f : field) : list pytype :=
  match f with
  | StringField _ _ => [TStr; TUnicode]
  | IntField _ _ => [TInt; TLong]
  | FloatField _ _ => [TFloat]
  | BooleanField => [TBool]
  | DateTimeField => [TDateTime]
  | _ => []
  end.

(** A text longer than the configured maximum. *)
Definition exceeds (max_length : option Z) (cs : codes) : bool :=
  match max_length with
  | Some m => Z.of_nat (List.length cs) >? m
  | None => false
  end.

(** A text the configured pattern does not match at its start. *)
Definition mismatches (regex : option pattern) (cs : codes) : bool :=
  match regex with
  | Some re => negb (re cs)
  | None => false
  end.

(** An integer strictly below the configured minimum, strictly above the
    configured maximum. *)
Definition int_below (bound : option Z) (n : Z) : bool :=
  match bound with
  | Some m => n <? m
  | None => false
  end.

Definition int_above (bound : option Z) (n : Z) : bool :=
  match bound with
  | Some m => n >? m
  | None => false
  end.

Definition float_below (bound : option float) (x : float) : bool :=
  match bound with
  | Some m => PrimFloat.ltb x m
  | None => false
  end.

Definition float_above (bound : option float) (x : float) : bool :=
  match bound with
  | Some m => PrimFloat.ltb m x
  | None => false
  end.

(** Python's [==] between an integer and a float: exact, and false for a
    NaN or an infinity. *)
Definition int_eq_float (n : Z) (x : float) : bool :=
  match Prim2SF x with
  | S754_zero _ => n =? 0
  | S754_finite s m e =>
      let sm := if s then Z.neg m else Z.pos m in
      if 0 <=? e then n =? sm * 2 ^ e else n * 2 ^ (- e) =? sm
  | _ => false
  end.

(** Python's [==] on the scalar kinds: numbers compare by value, a byte
    string equals a unicode string when it decodes (ascii) to the same
    characters, and values of unrelated kinds differ. *)
Definition scalar_eq (a b : pyval) : bool :=
  match a, b with
  | PyNone, PyNone => true
  | (PyBool _ | PyInt _), (PyBool _ | PyInt _) => int_value a =? int_value b
  | PyFloat x, PyFloat y => PrimFloat.eqb x y
  | (PyBool _ | PyInt _), PyFloat y => int_eq_float (int_value a) y
  | PyFloat x, (PyBool _ | PyInt _) => int_eq_float (int_value b) x
  | PyStr s, PyStr t => String.eqb s t
  | PyUnicode u, PyUnicode v => bool_decide (u = v)
  | PyStr s, PyUnicode u | PyUnicode u, PyStr s =>
      is_ascii s && bool_decide (codes_of_bytes s = u)
  | PyDateTime s, PyDateTime t => s =? t
  | _, _ => false
  end.

(** A byte string that the default codec cannot decode. *)
Definition undecodable (v : pyval) : bool :=
  match v with
  | PyStr s => negb (is_ascii s)
  | _ => false
  end.

(** A float that is not a number. *)
Definition is_NaN (v : pyval) : bool :=
  match v with
  | PyFloat x => negb (PrimFloat.eqb x x)
  | _ => false
  end.

Section ListVocabulary.
Context `{!Host}.

(** The elements of [items] the inner field rejects, each with its
    position (counted from [i]) and the exception its [validate] raises. *)
Fixpoint failing_from (f : field) (i : nat) (items : list pyval) : list (nat * exn) :=
  match items with
  | [] => []
  | item :: rest =>
      match validate f item with
      | Ok _ => failing_from f (S i) rest
      | Raise e => (i, e) :: failing_from f (S i) rest
      end
  end.

Definition failing (f : field) (items : list pyval) : list (nat * exn) :=
  failing_from f 0 items.

(** The error of a list field keeps the failing elements: they can be
    read back from the exception [validate] raises. *)
Definition keeps_failing_elements : Prop :=
  exists recover : exn -> list (nat * exn),
    forall (f : field) (items : list pyval),
      failing f items <> [] ->
      exists e, validate (ListField f) (PyList items) = Raise e /\
                recover e = failing f items.

End ListVocabulary.

(** ** Query values and member lookup *)

Section QueryValues.
Context `{!Host}.

(** [EmbeddedDocumentField.prepare_query_value] *)
Definition EmbeddedDocumentField_prepare_query_value (document : pyclass) (value : pyval)
  : result pyval :=
  to_mongo (EmbeddedDocumentField document) value.

(** [ListField.prepare_query_value]: the value is encoded as one element,
    with the inner field's [to_mongo]. *)
Definition ListField_prepare_query_value (fld : field) (value : pyval) : result pyval :=
  to_mongo fld value.

(** [ReferenceField.prepare_query_value] *)
Definition ReferenceField_prepare_query_value (document_type : pyclass) (value : pyval)
  : result pyval :=
  to_mongo (ReferenceField document_type) value.

End QueryValues.

Section MemberLookup.

(** [cls._fields]: the fields a document class declares, by name. *)
Variable class_fields : pyclass -> gmap string field.

(** [lookup_member] of a field class that does not define it in
    [fields.py] (the integer, float, boolean and timestamp fields): whatever
    the base class does. *)
Variable inherited_lookup_member : field -> string -> result (option field).

(** [lookup_member]: [None] is Python's [None], the answer of [dict.get] for
    a name the class does not declare. *)
Fixpoint lookup_member (self : field) (member_name : string) : result (option field) :=
  match self with
  | StringField _ _ => Ok None
  | EmbeddedDocumentField document => Ok (class_fields document !! member_name)
  | ListField fld => lookup_member fld member_name
  | ReferenceField document_type => Ok (class_fields document_type !! member_name)
  | _ => inherited_lookup_member self member_name
  end.

End MemberLookup.

(** [n] list fields around [f]. *)
Fixpoint nested (n : nat) (f : field) : field :=
  match n with
  | O => f
  | S k => ListField (nested k f)
  end.

(** The items of a list or a tuple. *)
Definition sequence_items (v : pyval) : option (list pyval) :=
  match v with
  | PyList l | PyTuple l => Some l
  | _ => None
  end.

(** A class declaring two fields, and a host whose [_from_son] always
    fails, for the examples. *)
Definition Address : pyclass := PyClass "Address" ["Address"; "EmbeddedDocument"] EmptyString.

Definition sample_fields (c : pyclass) : gmap string field :=
  if String.eqb (cls_name c) "Address"
  then <["city" := StringField None (Some 40)]> (<["zip" := IntField (Some 0) None]> ∅)
  else ∅.

Definition failing_host : Host := {|
  int_of_text := int_of_text (Host := sample_host);
  float_of_text := float_of_text (Host := sample_host);
  float_of_int := float_of_int (Host := sample_host);
  unicode_of_object := unicode_of_object (Host := sample_host);
  instance_truth := instance_truth (Host := sample_host);
  instance_iter := instance_iter (Host := sample_host);
  from_son := fun _ _ => Raise TypeError;
  document_to_mongo := document_to_mongo (Host := sample_host);
  ObjectId_new := ObjectId_new (Host := sample_host)
|}.

(** The scalar fields whose [to_python] calls a built-in conversion. *)
Definition coerces (f : field) : bool :=
  match f with
  | StringField _ _ | IntField _ _ | FloatField _ _ | BooleanField => true
  | _ => false
  end.

(** * Properties *)

(** ** Basic facts about the embedding *)

Lemma length_codes_of_bytes (s : string) :
  List.length (codes_of_bytes s) = String.length s.
Proof.
  unfold codes_of_bytes. rewrite length_map.
  induction s as [|c s IH]; simpl; [reflexivity | now rewrite IH].
Qed.

Lemma len_text (value : pyval) (cs : codes) :
  text_of value = Some cs -> len value = Ok (Z.of_nat (List.length cs)).
Proof.
  destruct value; simpl; intros E; try discriminate; injection E as <-.
  - now rewrite length_codes_of_bytes.
  - reflexivity.
Qed.

Lemma comprehension_Ok_Forall2 {A B} (f : A -> result B) (items : list A) (out : list B) :
  comprehension f items = Ok out <-> Forall2 (fun x y => f x = Ok y) items out.
Proof.
  revert out. induction items as [|x rest IH]; intros out; simpl.
  - split; [intros [= <-]; constructor | intros F; inversion F; reflexivity].
  - destruct (f x) as [y|e] eqn:Fx; simpl.
    + destruct (comprehension f rest) as [ys|e] eqn:C; simpl.
      * split.
        -- intros [= <-]. constructor; [assumption | now apply IH].
        -- intros F. inversion F as [|? y' ? ys' Hy Hys]; subst.
           rewrite Fx in Hy. injection Hy as <-.
           apply IH in Hys. now injection Hys as <-.
      * split; [discriminate|].
        intros F. inversion F as [|? y' ? ys' Hy Hys]; subst.
        apply IH in Hys. discriminate Hys.
    + split; [discriminate|].
      intros F. inversion F as [|? y' ? ys' Hy Hys]; subst.
      rewrite Fx in Hy. discriminate Hy.
Qed.

Lemma comprehension_first_failure {A B} (f : A -> result B)
    (before : list A) (x : A) (after : list A) (done : list B) (e : exn) :
  comprehension f before = Ok done ->
  f x = Raise e ->
  comprehension f (before ++ x :: after) = Raise e.
Proof.
  revert done. induction before as [|b rest IH]; intros done; simpl.
  - intros _ ->. reflexivity.
  - destruct (f b) as [y|e']; simpl; [|discriminate].
    destruct (comprehension f rest) as [ys|e'] eqn:C; simpl; [|discriminate].
    intros _ Fx. now rewrite (IH ys eq_refl Fx).
Qed.

(** Case analysis on a value under an [isinstance] test. *)
Ltac by_kind value :=
  destruct value; unfold isinstance; simpl;
  try match goal with |- context [(?a <=? ?b) && ?c] => destruct ((a <=? b) && c) end;
  simpl; try discriminate; eauto.

Lemma isinstance_text (value : pyval) :
  isinstance value [TStr; TUnicode] = true <-> exists cs, text_of value = Some cs.
Proof.
  split; [by_kind value | intros [cs E]; by_kind value].
Qed.

Lemma isinstance_int (value : pyval) :
  isinstance value [TInt; TLong] = true <->
  (exists b, value = PyBool b) \/ (exists n, value = PyInt n).
Proof.
  split; [by_kind value | intros [[b ->] | [n ->]]; [reflexivity|]].
  unfold isinstance; simpl. destruct (_ && _); reflexivity.
Qed.

Lemma isinstance_float (value : pyval) :
  isinstance value [TFloat] = true <-> exists x, value = PyFloat x.
Proof.
  split; [by_kind value | intros [x ->]; reflexivity].
Qed.

Lemma isinstance_bool (value : pyval) :
  isinstance value [TBool] = true <-> exists b, value = PyBool b.
Proof.
  split; [by_kind value | intros [x ->]; reflexivity].
Qed.

Lemma isinstance_datetime (value : pyval) :
  isinstance value [TDateTime] = true <-> exists t, value = PyDateTime t.
Proof.
  split; [by_kind value | intros [x ->]; reflexivity].
Qed.

Lemma isinstance_ObjectId (value : pyval) :
  isinstance value [TObjectId] = true <-> exists oid, value = PyObjectId oid.
Proof.
  split; [by_kind value | intros [x ->]; reflexivity].
Qed.

Lemma isinstance_DBRef (value : pyval) :
  isinstance value [TDBRef] = true <-> exists c i, value = PyDBRef c i.
Proof.
  split; [by_kind value | intros (c & i & ->); reflexivity].
Qed.

(** IEEE comparison: equal floats are ordered neither way. *)
Lemma SFcompare_Eq_sym (a b : spec_float) :
  SFcompare a b = Some Eq -> SFcompare b a = Some Eq.
Proof.
  destruct a as [sa|sa| |sa ma ea], b as [sb|sb| |sb mb eb]; simpl;
    try discriminate; try reflexivity;
    try (destruct sa; discriminate); try (destruct sb; discriminate).
  - destruct sa, sb; try discriminate; reflexivity.
  - destruct sa, sb; try discriminate.
    + destruct (Z.compare ea eb) eqn:Ez; try discriminate.
      apply Z.compare_eq in Ez as ->. rewrite Z.compare_refl.
      destruct (Pos.compare_cont Eq ma mb) eqn:Em; try discriminate.
      apply Pos.compare_eq in Em as ->.
      fold (Pos.compare mb mb). now rewrite Pos.compare_refl.
    + destruct (Z.compare ea eb) eqn:Ez; try discriminate.
      apply Z.compare_eq in Ez as ->. rewrite Z.compare_refl.
      destruct (Pos.compare_cont Eq ma mb) eqn:Em; try discriminate.
      apply Pos.compare_eq in Em as ->.
      fold (Pos.compare mb mb). now rewrite Pos.compare_refl.
Qed.

Lemma float_eqb_not_ltb (x y : float) :
  PrimFloat.eqb x y = true ->
  PrimFloat.ltb x y = false /\ PrimFloat.ltb y x = false.
Proof.
  rewrite FloatAxioms.eqb_spec, !FloatAxioms.ltb_spec. unfold SFeqb, SFltb.
  destruct (SFcompare (Prim2SF x) (Prim2SF y)) as [[| |]|] eqn:E; try discriminate.
  intros _. now rewrite (SFcompare_Eq_sym _ _ E).
Qed.

(** ** Scalar validation *)

Section ScalarValidation.
Context `{!Host}.

Lemma StringField_validate_eq regex max_length value cs :
  text_of value = Some cs ->
  validate (StringField regex max_length) value =
    if exceeds max_length cs then Raise (ValidationError too_long_msg)
    else if mismatches regex cs then Raise (ValidationError no_match_msg)
    else Ok tt.
Proof.
  intros E.
  pose proof (proj2 (isinstance_text value) (ex_intro _ cs E)) as K.
  cbn [validate]. rewrite K, E. simpl.
  destruct max_length as [m|]; simpl.
  - rewrite (len_text _ _ E). simpl.
    destruct (_ >? m); simpl; [reflexivity|].
    destruct regex as [re|]; simpl; [destruct (re cs)|]; reflexivity.
  - destruct regex as [re|]; simpl; [destruct (re cs)|]; reflexivity.
Qed.

Lemma IntField_validate_eq min_value max_value value :
  isinstance value [TInt; TLong] = true ->
  validate (IntField min_value max_value) value =
    if int_below min_value (int_value value)
    then Raise (ValidationError int_too_small_msg)
    else if int_above max_value (int_value value)
    then Raise (ValidationError int_too_large_msg)
    else Ok tt.
Proof.
  intros E. cbn [validate]. rewrite E. simpl.
  destruct min_value as [m|]; simpl.
  - destruct (_ <? m); simpl; [reflexivity|].
    destruct max_value as [M|]; simpl; [destruct (_ >? M)|]; reflexivity.
  - destruct max_value as [M|]; simpl; [destruct (_ >? M)|]; reflexivity.
Qed.

Lemma FloatField_validate_eq min_value max_value x :
  validate (FloatField min_value max_value) (PyFloat x) =
    if float_below min_value x
    then Raise (ValidationError float_too_small_msg)
    else if float_above max_value x
    then Raise (ValidationError float_too_large_msg)
    else Ok tt.
Proof.
  simpl. unfold isinstance; simpl.
  destruct min_value as [m|]; simpl.
  - destruct (PrimFloat.ltb x m); simpl; [reflexivity|].
    destruct max_value as [M|]; simpl; [destruct (PrimFloat.ltb M x)|]; reflexivity.
  - destruct max_value as [M|]; simpl; [destruct (PrimFloat.ltb M x)|]; reflexivity.
Qed.

(** C7. A text field accepts a string whose length is at most the
    configured maximum (and which the pattern, if any, matches), rejects a
    string longer than the maximum, and rejects a string the pattern does
    not match at its start; the length is checked first, so a string that
    is too long is reported as too long whatever the pattern says. *)
Theorem StringField_validate_length_before_pattern
    (regex : option pattern) (max_length : option Z) (value : pyval) (cs : codes) :
  text_of value = Some cs ->
  let outcome := validate (StringField regex max_length) value in
  (exceeds max_length cs = false -> mismatches regex cs = false -> outcome = Ok tt) /\
  (exceeds max_length cs = true ->
     outcome = Raise (ValidationError too_long_msg)) /\
  (mismatches regex cs = true -> exists msg, outcome = Raise (ValidationError msg)) /\
  (exceeds max_length cs = false -> mismatches regex cs = true ->
     outcome = Raise (ValidationError no_match_msg)).
Proof.
  intros E outcome. subst outcome. rewrite (StringField_validate_eq _ _ _ _ E).
  repeat split.
  - intros -> ->. reflexivity.
  - intros ->. reflexivity.
  - intros ->. destruct (exceeds max_length cs); eauto.
  - intros -> ->. reflexivity.
Qed.

(** C8. An integer field and a floating-point field reject a value of
    their kind strictly below the minimum or strictly above the maximum,
    and accept a value equal to a bound: the comparison with a bound is
    strict, so the bound itself passes it (and the value is accepted when
    the other bound does not reject it). *)
Theorem numeric_validate_inclusive_bounds :
  (forall (min_value max_value : option Z) (value : pyval),
     isinstance value [TInt; TLong] = true ->
     let n := int_value value in
     let outcome := validate (IntField min_value max_value) value in
     (forall m, min_value = Some m -> n < m ->
        outcome = Raise (ValidationError int_too_small_msg)) /\
     (forall m, max_value = Some m -> n > m ->
        exists msg, outcome = Raise (ValidationError msg)) /\
     (forall m, min_value = Some m -> n = m ->
        int_above max_value n = false -> outcome = Ok tt) /\
     (forall m, max_value = Some m -> n = m ->
        int_below min_value n = false -> outcome = Ok tt)) /\
  (forall (min_value max_value : option float) (x : float),
     let outcome := validate (FloatField min_value max_value) (PyFloat x) in
     (forall m, min_value = Some m -> PrimFloat.ltb x m = true ->
        outcome = Raise (ValidationError float_too_small_msg)) /\
     (forall m, max_value = Some m -> PrimFloat.ltb m x = true ->
        exists msg, outcome = Raise (ValidationError msg)) /\
     (forall m, min_value = Some m -> PrimFloat.eqb x m = true ->
        float_above max_value x = false -> outcome = Ok tt) /\
     (forall m, max_value = Some m -> PrimFloat.eqb x m = true ->
        float_below min_value x = false -> outcome = Ok tt)).
Proof.
  split.
  - intros min_value max_value value K n outcome. subst n outcome.
    rewrite (IntField_validate_eq _ _ _ K). repeat split.
    + intros m -> Hlt. simpl. now rewrite (proj2 (Z.ltb_lt _ _) Hlt).
    + intros m -> Hgt. simpl.
      destruct (int_below min_value (int_value value)); [eauto|].
      rewrite (proj2 (Z.gtb_gt _ _) Hgt). eauto.
    + intros m -> -> ->. simpl. now rewrite Z.ltb_irrefl.
    + intros m -> -> ->. simpl. now rewrite Z.gtb_ltb, Z.ltb_irrefl.
  - intros min_value max_value x outcome. subst outcome.
    rewrite FloatField_validate_eq. repeat split.
    + intros m -> Hlt. simpl. now rewrite Hlt.
    + intros m -> Hgt. simpl.
      destruct (float_below min_value x); [eauto|]. rewrite Hgt. eauto.
    + intros m -> Heq ->. simpl.
      now rewrite (proj1 (float_eqb_not_ltb _ _ Heq)).
    + intros m -> Heq ->. simpl.
      now rewrite (proj2 (float_eqb_not_ltb _ _ Heq)).
Qed.

(** C9. For every scalar field a value that is not an instance of the
    field's kind makes [validate] fail with [AssertionError]; a value of
    the right kind is either accepted or rejected with a
    [ValidationError]; and the two exceptions are different. *)
Theorem scalar_kind_mismatch_is_assertion (f : field) (value : pyval) :
  is_scalar f = true ->
  (isinstance value (canonical_types f) = false ->
     validate f value = Raise AssertionError) /\
  (isinstance value (canonical_types f) = true ->
     validate f value = Ok tt \/
     exists msg, validate f value = Raise (ValidationError msg)) /\
  (forall msg, AssertionError <> ValidationError msg).
Proof.
  intros S. destruct f; try discriminate S; clear S; cbn [canonical_types].
  - repeat split; [intros K; cbn [validate]; now rewrite K | | discriminate].
    intros K. apply isinstance_text in K as [cs E].
    rewrite (StringField_validate_eq _ _ _ _ E).
    destruct (exceeds _ _); [eauto|]. destruct (mismatches _ _); eauto.
  - repeat split; [intros K; cbn [validate]; now rewrite K | | discriminate].
    intros K. rewrite (IntField_validate_eq _ _ _ K).
    destruct (int_below _ _); [eauto|]. destruct (int_above _ _); eauto.
  - repeat split; [intros K; cbn [validate]; now rewrite K | | discriminate].
    intros K. apply isinstance_float in K as [x ->].
    rewrite FloatField_validate_eq.
    destruct (float_below _ _); [eauto|]. destruct (float_above _ _); eauto.
  - repeat split; [intros K; cbn [validate]; now rewrite K | | discriminate].
    intros K. cbn [validate]. rewrite K. now left.
  - repeat split; [intros K; cbn [validate]; now rewrite K | | discriminate].
    intros K. cbn [validate]. rewrite K. now left.
Qed.

End ScalarValidation.

Lemma StringField_validate_length_before_pattern_witness :
  validate (H := sample_host) (StringField (Some starts_with_h) (Some 5)) (PyStr "hello") = Ok tt /\
  validate (H := sample_host) (StringField (Some starts_with_h) (Some 5)) (PyStr "hello!")
    = Raise (ValidationError too_long_msg) /\
  validate (H := sample_host) (StringField (Some starts_with_h) (Some 5)) (PyStr "jello")
    = Raise (ValidationError no_match_msg).
Proof.
  split; [|split].
  - apply (StringField_validate_length_before_pattern (H := sample_host)
             (Some starts_with_h) (Some 5) (PyStr "hello") _ eq_refl); reflexivity.
  - apply (StringField_validate_length_before_pattern (H := sample_host)
             (Some starts_with_h) (Some 5) (PyStr "hello!") _ eq_refl); reflexivity.
  - apply (StringField_validate_length_before_pattern (H := sample_host)
             (Some starts_with_h) (Some 5) (PyStr "jello") _ eq_refl); reflexivity.
Defined.

Lemma numeric_validate_inclusive_bounds_witness :
  validate (H := sample_host) (IntField (Some 0) (Some 10)) (PyInt 10) = Ok tt /\
  validate (H := sample_host) (IntField (Some 0) (Some 10)) (PyInt (-1))
    = Raise (ValidationError int_too_small_msg) /\
  validate (H := sample_host) (FloatField (Some 0%float) (Some 1%float)) (PyFloat 1%float)
    = Ok tt /\
  validate (H := sample_host) (FloatField (Some 0%float) (Some 1%float))
    (PyFloat (-1)%float) = Raise (ValidationError float_too_small_msg).
Proof.
  destruct (numeric_validate_inclusive_bounds (H := sample_host)) as [HI HF].
  split; [|split; [|split]].
  - destruct (HI (Some 0) (Some 10) (PyInt 10) eq_refl) as (_ & _ & _ & Hmax).
    apply (Hmax 10); reflexivity.
  - destruct (HI (Some 0) (Some 10) (PyInt (-1)) eq_refl) as (Hmin & _).
    apply (Hmin 0); reflexivity.
  - destruct (HF (Some 0%float) (Some 1%float) 1%float) as (_ & _ & _ & Hmax).
    apply (Hmax 1%float); reflexivity.
  - destruct (HF (Some 0%float) (Some 1%float) (-1)%float) as (Hmin & _).
    apply (Hmin 0%float); reflexivity.
Defined.

Lemma scalar_kind_mismatch_is_assertion_witness :
  validate (H := sample_host) (IntField (Some 0) (Some 10)) (PyStr "7") = Raise AssertionError /\
  validate (H := sample_host) BooleanField (PyInt 1) = Raise AssertionError.
Proof.
  split.
  - apply (scalar_kind_mismatch_is_assertion (H := sample_host)
             (IntField (Some 0) (Some 10)) (PyStr "7") eq_refl); reflexivity.
  - apply (scalar_kind_mismatch_is_assertion (H := sample_host)
             BooleanField (PyInt 1) eq_refl); reflexivity.
Defined.

(** ** List validation *)

Section ListValidation.
Context `{!Host}.

Lemma failing_from_nil_comprehension (f : field) (items : list pyval) (i : nat) :
  failing_from f i items = [] ->
  exists done, comprehension (validate f) items = Ok done.
Proof.
  revert i. induction items as [|item rest IH]; intros i; simpl; [eauto|].
  destruct (validate f item) as [[]|e]; [|discriminate].
  intros E. destruct (IH _ E) as [done ->]. simpl. eauto.
Qed.

Lemma failing_from_cons_comprehension (f : field) (items : list pyval) (i : nat) :
  failing_from f i items <> [] ->
  exists e, comprehension (validate f) items = Raise e.
Proof.
  revert i. induction items as [|item rest IH]; intros i; simpl; [congruence|].
  destruct (validate f item) as [[]|e]; simpl; [|eauto].
  intros E. destruct (IH _ E) as [e ->]. simpl. eauto.
Qed.

(** A list field accepts a list or tuple none of whose elements the inner
    field rejects; the empty sequence in particular. *)
Lemma ListField_validate_accepts (f : field) (items : list pyval) :
  failing f items = [] ->
  validate (ListField f) (PyList items) = Ok tt /\
  validate (ListField f) (PyTuple items) = Ok tt.
Proof.
  intros E. destruct (failing_from_nil_comprehension _ _ _ E) as [done K].
  split; cbn [validate]; unfold isinstance; simpl; now rewrite K.
Qed.

(** C1, as the code has it. When the inner field rejects at least one
    element of a list or tuple, [ListField.validate] raises a
    [ValidationError] with one fixed message, whichever elements failed
    and whatever exception each of them raised. *)
Theorem ListField_validate_fixed_message (f : field) (items : list pyval) :
  failing f items <> [] ->
  validate (ListField f) (PyList items) = Raise (ValidationError bad_items_msg) /\
  validate (ListField f) (PyTuple items) = Raise (ValidationError bad_items_msg).
Proof.
  intros E. destruct (failing_from_cons_comprehension _ _ _ E) as [e K].
  split; cbn [validate]; unfold isinstance; simpl; now rewrite K.
Qed.

End ListValidation.

Lemma ListField_validate_fixed_message_witness :
  validate (H := sample_host) (ListField (IntField None None))
    (PyList [PyInt 1; PyStr "x"; PyInt 3]) = Raise (ValidationError bad_items_msg).
Proof.
  apply (ListField_validate_fixed_message (H := sample_host) (IntField None None)
           [PyInt 1; PyStr "x"; PyInt 3]).
  vm_compute. discriminate.
Defined.

(** C1, as the spec states it, fails: a wrong element at position 1 and a
    wrong element at position 0 produce the same exception, so nothing read
    from the exception tells which element failed. *)
Lemma ListField_validate_forgets_position :
  ~ keeps_failing_elements (H := sample_host).
Proof.
  intros [recover Hr].
  destruct (Hr (IntField None None) [PyInt 1; PyStr "x"; PyInt 3]) as (e1 & V1 & R1);
    [vm_compute; discriminate|].
  destruct (Hr (IntField None None) [PyStr "x"; PyInt 1; PyInt 3]) as (e2 & V2 & R2);
    [vm_compute; discriminate|].
  vm_compute in V1, V2, R1, R2.
  injection V1 as <-. injection V2 as <-.
  rewrite R1 in R2. discriminate R2.
Defined.

(** ** Encoding a reference *)

Section ReferenceEncoding.
Context `{!Host}.

(** The identifier [to_mongo] works from: the argument itself when it is
    text or an [ObjectId], otherwise its [id] attribute, which must not be
    [None]. *)
Lemma ReferenceField_to_mongo_of_document
    (document_type cls : pyclass) (data : list (string * pyval)) (i : pyval) :
  assoc "id" data = Some i ->
  to_mongo (ReferenceField document_type) (PyDoc cls data) =
    (if is_None i then Raise (ValidationError unsaved_msg)
     else if isinstance i [TObjectId] then Ok (PyDBRef (cls_collection document_type) i)
     else oid <- ObjectId_new i ;;
          Ok (PyDBRef (cls_collection document_type) (PyObjectId oid))).
Proof.
  intros E. cbn [to_mongo]. unfold ReferenceField_to_mongo.
  replace (isinstance (PyDoc cls data) [TStr; TUnicode; TObjectId]) with false
    by reflexivity.
  cbn [getattr_id]. rewrite E. cbn [bind].
  destruct (is_None i); cbn [raise_if bind]; [reflexivity|].
  destruct (isinstance i [TObjectId]); cbn [negb bind]; [reflexivity|].
  destruct (ObjectId_new i); reflexivity.
Qed.

(** C6. Encoding a document instance whose identifier is [None] fails
    with the unsaved-reference [ValidationError]; encoding one whose
    identifier is present returns the token that pairs the target type's
    collection with that identifier: the identifier itself when it is an
    [ObjectId], the [ObjectId] made from it otherwise. *)
Theorem ReferenceField_to_mongo_unsaved_or_token
    (document_type cls : pyclass) (data : list (string * pyval)) :
  let outcome := to_mongo (ReferenceField document_type) (PyDoc cls data) in
  (assoc "id" data = Some PyNone ->
     outcome = Raise (ValidationError unsaved_msg)) /\
  (forall oid, assoc "id" data = Some (PyObjectId oid) ->
     outcome = Ok (PyDBRef (cls_collection document_type) (PyObjectId oid))) /\
  (forall i oid, assoc "id" data = Some i -> is_None i = false ->
     ObjectId_new i = Ok oid -> isinstance i [TObjectId] = false ->
     outcome = Ok (PyDBRef (cls_collection document_type) (PyObjectId oid))).
Proof.
  intros outcome. subst outcome. split; [|split].
  - intros E. now rewrite (ReferenceField_to_mongo_of_document _ _ _ _ E).
  - intros oid E. now rewrite (ReferenceField_to_mongo_of_document _ _ _ _ E).
  - intros i oid E N C K.
    rewrite (ReferenceField_to_mongo_of_document _ _ _ _ E), N, K, C. reflexivity.
Qed.

(** C10. A token [ReferenceField.to_mongo] returns always pairs the target
    type's collection with an [ObjectId].  A text identifier, passed bare
    or read from the [id] of a document instance, goes through the
    [ObjectId] constructor, and the token holds what the constructor made
    of it (or the constructor's exception comes out); an identifier that is
    an [ObjectId] already is paired as it is.  So no token pairs the
    collection with plain text. *)
Theorem ReferenceField_to_mongo_token_holds_ObjectId
    (document_type : pyclass) (document : pyval) :
  let outcome := to_mongo (ReferenceField document_type) document in
  let collection := cls_collection document_type in
  (forall token, outcome = Ok token ->
     exists oid, token = PyDBRef collection (PyObjectId oid)) /\
  (forall cs, text_of document = Some cs ->
     outcome = (oid <- ObjectId_new document ;; Ok (PyDBRef collection (PyObjectId oid)))) /\
  (forall cls data i cs,
     document = PyDoc cls data -> assoc "id" data = Some i -> text_of i = Some cs ->
     outcome = (oid <- ObjectId_new i ;; Ok (PyDBRef collection (PyObjectId oid)))) /\
  (forall oid,
     document = PyObjectId oid \/
     (exists cls data, document = PyDoc cls data /\
                       assoc "id" data = Some (PyObjectId oid)) ->
     outcome = Ok (PyDBRef collection (PyObjectId oid))).
Proof.
  intros outcome collection. subst outcome collection. repeat refine (conj _ _).
  - intros token. cbn [to_mongo]. unfold ReferenceField_to_mongo.
    match goal with |- bind ?first _ = _ -> _ => destruct first as [id_|e] end;
      cbn [bind]; [|discriminate].
    destruct (isinstance id_ [TObjectId]) eqn:K; cbn [negb bind].
    + apply isinstance_ObjectId in K as [oid ->]. intros [= <-]. eauto.
    + destruct (ObjectId_new id_) as [oid|e]; cbn [bind]; [|discriminate].
      intros [= <-]. eauto.
  - intros cs T. cbn [to_mongo]. unfold ReferenceField_to_mongo.
    destruct document; try discriminate T; unfold isinstance; simpl;
      match goal with
      | |- context [ObjectId_new ?v] => destruct (ObjectId_new v); reflexivity
      end.
  - intros cls data i cs -> E T.
    rewrite (ReferenceField_to_mongo_of_document _ _ _ _ E).
    destruct i; try discriminate T; reflexivity.
  - intros oid [-> | (cls & data & -> & E)]; [reflexivity|].
    now rewrite (ReferenceField_to_mongo_of_document _ _ _ _ E).
Qed.

(** A bare text identifier is never wrapped as it is. *)
Lemma ReferenceField_to_mongo_text (document_type : pyclass) (s : string) :
  to_mongo (ReferenceField document_type) (PyStr s) =
    (oid <- ObjectId_new (PyStr s) ;;
     Ok (PyDBRef (cls_collection document_type) (PyObjectId oid))).
Proof.
  cbn [to_mongo]. unfold ReferenceField_to_mongo.
  replace (isinstance (PyStr s) [TStr; TUnicode; TObjectId]) with true by reflexivity.
  cbn [bind].
  replace (isinstance (PyStr s) [TObjectId]) with false by reflexivity.
  cbn [negb]. destruct (ObjectId_new (PyStr s)); reflexivity.
Qed.

End ReferenceEncoding.

Lemma ReferenceField_to_mongo_unsaved_or_token_witness :
  to_mongo (H := sample_host) (ReferenceField Author)
    (PyDoc Author [("id", PyNone); ("name", PyStr "Ann")])
    = Raise (ValidationError unsaved_msg) /\
  to_mongo (H := sample_host) (ReferenceField Author)
    (PyDoc Author [("id", PyObjectId sample_oid); ("name", PyStr "Ann")])
    = Ok (PyDBRef "authors" (PyObjectId sample_oid)) /\
  to_mongo (H := sample_host) (ReferenceField Author)
    (PyDoc Author [("id", PyStr sample_oid); ("name", PyStr "Ann")])
    = Ok (PyDBRef "authors" (PyObjectId sample_oid)).
Proof.
  split; [|split].
  - apply (ReferenceField_to_mongo_unsaved_or_token (H := sample_host) Author Author
             [("id", PyNone); ("name", PyStr "Ann")]); reflexivity.
  - apply (ReferenceField_to_mongo_unsaved_or_token (H := sample_host) Author Author
             [("id", PyObjectId sample_oid); ("name", PyStr "Ann")]); reflexivity.
  - apply (ReferenceField_to_mongo_unsaved_or_token (H := sample_host) Author Author
             [("id", PyStr sample_oid); ("name", PyStr "Ann")]
          ) with (i := PyStr sample_oid); reflexivity.
Defined.

Lemma ReferenceField_to_mongo_token_holds_ObjectId_witness :
  to_mongo (H := sample_host) (ReferenceField Author) (PyStr sample_oid) = Ok sample_token /\
  to_mongo (H := sample_host) (ReferenceField Author)
    (PyDoc Author [("id", PyStr sample_oid); ("name", PyStr "Ann")]) = Ok sample_token /\
  to_mongo (H := sample_host) (ReferenceField Author) (PyStr "A1") = Raise InvalidId /\
  exists oid, sample_token = PyDBRef (cls_collection Author) (PyObjectId oid).
Proof.
  split; [|split; [|split]].
  - exact (proj1 (proj2 (ReferenceField_to_mongo_token_holds_ObjectId (H := sample_host)
                           Author (PyStr sample_oid))) _ eq_refl).
  - exact (proj1 (proj2 (proj2 (ReferenceField_to_mongo_token_holds_ObjectId
                                  (H := sample_host) Author
                                  (PyDoc Author [("id", PyStr sample_oid);
                                                 ("name", PyStr "Ann")]))))
             _ _ _ _ eq_refl eq_refl eq_refl).
  - exact (proj1 (proj2 (ReferenceField_to_mongo_token_holds_ObjectId (H := sample_host)
                           Author (PyStr "A1"))) _ eq_refl).
  - exact (proj1 (ReferenceField_to_mongo_token_holds_ObjectId (H := sample_host)
                    Author (PyStr sample_oid)) sample_token eq_refl).
Defined.

(** ** Reading a reference attribute *)

Section DescriptorReads.
Context `{!Host}.

(** A slot that holds anything but a token is read as it is: no lookup,
    no change. *)
Lemma ReferenceField_get_resolved
    (db : database) (name : string) (document_type : pyclass) (w : world) (v : pyval) :
  data w !! name = Some v ->
  isinstance v [TDBRef] = false ->
  ReferenceField_get db name document_type (Some w) = (Ok (GotValue v), Some w).
Proof.
  intros E K. destruct w as [d l]. simpl in E.
  unfold ReferenceField_get, ReferenceField_get_instance, BaseField_get, dict_get.
  cbn [data lookups]. rewrite E. cbn [from_option id]. rewrite K. reflexivity.
Qed.

Lemma reads_resolved
    (dbs : list database) (name : string) (document_type : pyclass) (w : world)
    (v : pyval) :
  data w !! name = Some v ->
  isinstance v [TDBRef] = false ->
  reads dbs name document_type (Some w) = (map (fun _ => Ok (GotValue v)) dbs, Some w).
Proof.
  intros E K. induction dbs as [|db rest IH]; [reflexivity|].
  cbn [reads]. rewrite (ReferenceField_get_resolved _ _ _ _ _ E K), IH. reflexivity.
Qed.

(** A slot that holds a token the handle cannot resolve: one lookup, the
    slot keeps the token, and the read hands back [None]. *)
Lemma ReferenceField_get_dangling
    (db : database) (name : string) (document_type : pyclass) (w : world) (ref : pyval) :
  data w !! name = Some ref ->
  isinstance ref [TDBRef] = true ->
  is_None (db ref) = true ->
  ReferenceField_get db name document_type (Some w) =
    (Ok (GotValue PyNone), Some (World (data w) (lookups w ++ [ref]))).
Proof.
  intros E K N. destruct w as [d l]. simpl in E.
  unfold ReferenceField_get, ReferenceField_get_instance, BaseField_get, dict_get.
  cbn [data lookups]. rewrite E. cbn [from_option id]. rewrite K, N.
  reflexivity.
Qed.

(** C2. While the handle finds nothing for the token in the slot, every
    read hands back an absent value ([None]), leaves the slot holding the
    token, and asks the handle once more: the failure is not cached. *)
Theorem ReferenceField_get_dangling_retries
    (dbs : list database) (name : string) (document_type : pyclass) (w : world)
    (ref : pyval) :
  data w !! name = Some ref ->
  isinstance ref [TDBRef] = true ->
  Forall (fun db : database => is_None (db ref) = true) dbs ->
  reads dbs name document_type (Some w) =
    (map (fun _ => Ok (GotValue PyNone)) dbs,
     Some (World (data w) (lookups w ++ map (fun _ => ref) dbs))).
Proof.
  intros E K A. revert w E. induction A as [|db rest N A IH]; intros w E.
  - destruct w. simpl. now rewrite app_nil_r.
  - cbn [reads]. rewrite (ReferenceField_get_dangling _ _ _ _ _ E K N).
    rewrite (IH (World (data w) (lookups w ++ [ref])) E).
    simpl. now rewrite <- app_assoc.
Qed.

(** C3. When the handle resolves the token in the slot, the first read
    asks the handle exactly once, overwrites the slot with the document
    built from the stored mapping and hands that document back; every
    later read hands back the same document and leaves both the slot and
    the query log untouched, whatever the handle would answer by then. *)
Theorem ReferenceField_get_resolves_once
    (db : database) (later : list database) (name : string) (document_type : pyclass)
    (w : world) (ref : pyval) (inst : pyclass * list (string * pyval)) :
  data w !! name = Some ref ->
  isinstance ref [TDBRef] = true ->
  is_None (db ref) = false ->
  from_son document_type (db ref) = Ok inst ->
  let doc := PyDoc (fst inst) (snd inst) in
  let w' := World (<[name := doc]> (data w)) (lookups w ++ [ref]) in
  ReferenceField_get db name document_type (Some w) = (Ok (GotValue doc), Some w') /\
  reads later name document_type (Some w') =
    (map (fun _ => Ok (GotValue doc)) later, Some w').
Proof.
  intros E K N F doc w'. split.
  - destruct w as [d l]. simpl in E. subst w'.
    unfold ReferenceField_get, ReferenceField_get_instance, BaseField_get, dict_get.
    cbn [data lookups]. rewrite E. cbn [from_option id]. rewrite K, N.
    cbn [negb data lookups]. rewrite F. cbn [data lookups].
    rewrite lookup_insert_eq. reflexivity.
  - apply reads_resolved; [apply lookup_insert_eq | reflexivity].
Qed.

End DescriptorReads.

Lemma ReferenceField_get_dangling_retries_witness :
  reads (H := sample_host) [empty_db; empty_db; empty_db] "author" Author (Some sample_book) =
    ([Ok (GotValue PyNone); Ok (GotValue PyNone); Ok (GotValue PyNone)],
     Some (World (data sample_book) [sample_token; sample_token; sample_token])).
Proof.
  apply (ReferenceField_get_dangling_retries (H := sample_host)
           [empty_db; empty_db; empty_db] "author" Author sample_book sample_token).
  - reflexivity.
  - reflexivity.
  - repeat constructor.
Defined.

Lemma ReferenceField_get_resolves_once_witness :
  ReferenceField_get (H := sample_host) sample_db "author" Author (Some sample_book) =
    (Ok (GotValue ann),
     Some (World (<["author" := ann]> (data sample_book)) [sample_token])) /\
  reads (H := sample_host) [empty_db; sample_db] "author" Author
    (Some (World (<["author" := ann]> (data sample_book)) [sample_token])) =
    ([Ok (GotValue ann); Ok (GotValue ann)],
     Some (World (<["author" := ann]> (data sample_book)) [sample_token])).
Proof.
  apply (ReferenceField_get_resolves_once (H := sample_host) sample_db
           [empty_db; sample_db] "author" Author sample_book sample_token
           (Author, [("id", PyObjectId sample_oid); ("name", PyStr "Ann")]));
    reflexivity.
Defined.

(** ** Normalisation and the round trip *)

Section Normalisation.
Context `{!Host}.

Lemma to_python_canonical (f : field) (v : pyval) :
  is_scalar f = true ->
  isinstance v (canonical_types f) = true ->
  undecodable v = false ->
  exists r, to_python f v = Ok r /\ (is_NaN v = false -> scalar_eq r v = true).
Proof.
  intros S K U. destruct f; try discriminate S; clear S; cbn [canonical_types] in K.
  - apply isinstance_text in K as [cs E].
    destruct v; try discriminate E; cbn [to_python py_unicode].
    + simpl in U. apply negb_false_iff in U. rewrite U. eexists; split; [reflexivity|].
      intros _. simpl. rewrite U. simpl. now apply bool_decide_eq_true.
    + eexists; split; [reflexivity|]. intros _. simpl. now apply bool_decide_eq_true.
  - apply isinstance_int in K as [[b ->] | [n ->]]; cbn [to_python py_int];
      (eexists; split; [reflexivity | intros _; apply Z.eqb_refl]).
  - apply isinstance_float in K as [x ->]. cbn [to_python py_float].
    eexists; split; [reflexivity|]. simpl. now intros ->%negb_false_iff.
  - apply isinstance_bool in K as [b ->]. cbn [to_python py_bool bind].
    eexists; split; [reflexivity | intros _; apply Z.eqb_refl].
  - apply isinstance_datetime in K as [t ->]. cbn [to_python BaseField_to_python].
    eexists; split; [reflexivity | intros _; apply Z.eqb_refl].
Qed.

Lemma validate_canonical (f : field) (v : pyval) :
  is_scalar f = true ->
  validate f v = Ok tt ->
  isinstance v (canonical_types f) = true.
Proof.
  intros S V. destruct (isinstance v (canonical_types f)) eqn:K; [reflexivity|].
  destruct f; try discriminate S; cbn [canonical_types] in K;
    cbn [validate] in V; rewrite K in V; discriminate V.
Qed.

Lemma coerces_is_scalar (f : field) : coerces f = true -> is_scalar f = true.
Proof.
  destruct f; simpl; congruence.
Qed.

Lemma comprehension_all_Ok {A B} (f : A -> result B) (items : list A) :
  Forall (fun item => exists y, f item = Ok y) items ->
  exists done, comprehension f items = Ok done.
Proof.
  induction 1 as [|item rest [y Hy] _ [done IH]]; simpl; [eauto|].
  rewrite Hy, IH. simpl. eauto.
Qed.

(** C4, as the code has it. [to_python] of a string, integer, float or
    boolean field never raises on a value that is already an instance of
    the field's kind, a byte string the default codec cannot decode
    excepted, and that of a boolean field never raises on a value that is
    not an instance of a user class.  On other inputs the exception of the
    conversion comes out: that of the instance's own truth test for a
    boolean field, [TypeError] for an integer or float field given [None],
    a list, a tuple, a dictionary or a timestamp, the numeral parser's
    exception for an integer or float field given text, [UnicodeDecodeError]
    for a string field given an undecodable byte string, [TypeError] for a
    list field given [None], a number or a timestamp, and for a list field
    the exception of the first element its inner field cannot normalise.
    The constraints a field was configured with play no part in it. *)
Theorem to_python_total_on_own_kind :
  (forall f v, coerces f = true ->
     isinstance v (canonical_types f) = true ->
     undecodable v = false ->
     exists r, to_python f v = Ok r) /\
  (forall v, (forall c d, v <> PyDoc c d) ->
     exists b, to_python BooleanField v = Ok (PyBool b)) /\
  (forall c d e, instance_truth c d = Raise e ->
     to_python BooleanField (PyDoc c d) = Raise e) /\
  (forall min_i max_i min_f max_f v,
     isinstance v [TNoneType; TList; TTuple; TDict; TDateTime] = true ->
     to_python (IntField min_i max_i) v = Raise TypeError /\
     to_python (FloatField min_f max_f) v = Raise TypeError) /\
  (forall min_i max_i min_f max_f v cs e, text_of v = Some cs ->
     (int_of_text cs = Raise e -> to_python (IntField min_i max_i) v = Raise e) /\
     (float_of_text cs = Raise e -> to_python (FloatField min_f max_f) v = Raise e)) /\
  (forall regex max_length v, undecodable v = true ->
     to_python (StringField regex max_length) v = Raise UnicodeDecodeError) /\
  (forall f v,
     isinstance v [TNoneType; TBool; TInt; TLong; TFloat; TDateTime] = true ->
     to_python (ListField f) v = Raise TypeError) /\
  (forall f before x after e,
     Forall (fun item => exists y, to_python f item = Ok y) before ->
     to_python f x = Raise e ->
     to_python (ListField f) (PyList (before ++ x :: after)) = Raise e) /\
  (forall regex max_length min_i max_i min_f max_f v,
     to_python (StringField regex max_length) v = to_python (StringField None None) v /\
     to_python (IntField min_i max_i) v = to_python (IntField None None) v /\
     to_python (FloatField min_f max_f) v = to_python (FloatField None None) v).
Proof.
  repeat refine (conj _ _).
  - intros f v C K U.
    destruct (to_python_canonical f v (coerces_is_scalar f C) K U) as (r & R & _). eauto.
  - intros v N. cbn [to_python].
    destruct v; cbn [py_bool bind]; eauto. exfalso. eapply N. reflexivity.
  - intros c d e T. cbn [to_python py_bool]. now rewrite T.
  - intros min_i max_i min_f max_f v. by_kind v.
  - intros min_i max_i min_f max_f v cs e T.
    destruct v; try discriminate T; injection T as <-;
      split; intros E; cbn [to_python py_int py_float]; now rewrite E.
  - intros regex max_length v U. destruct v; try discriminate U.
    cbn [to_python py_unicode]. simpl in U. apply negb_true_iff in U. now rewrite U.
  - intros f v. by_kind v.
  - intros f before x after e A Fx. cbn [to_python py_iter bind].
    destruct (comprehension_all_Ok _ _ A) as [done C].
    now rewrite (comprehension_first_failure _ _ _ after _ _ C Fx).
  - intros. repeat split.
Qed.

(** C5, as the code has it. For every scalar field and every value its
    [validate] accepts, other than a byte string the default codec cannot
    decode and a NaN, decoding the encoded value succeeds and gives a value
    equal ([==]) to the original. *)
Theorem scalar_round_trip (f : field) (v : pyval) :
  is_scalar f = true ->
  validate f v = Ok tt ->
  undecodable v = false ->
  is_NaN v = false ->
  exists r, (m <- to_mongo f v ;; to_python f m) = Ok r /\ scalar_eq r v = true.
Proof.
  intros S V U N.
  pose proof (validate_canonical f v S V) as K.
  destruct (to_python_canonical f v S K U) as (r & R & Q).
  exists r. split; [|auto].
  destruct f; try discriminate S; cbn [to_mongo BaseField_to_mongo bind]; exact R.
Qed.

End Normalisation.

Lemma to_python_total_on_own_kind_witness :
  (exists r, to_python (H := sample_host) (IntField (Some 0) (Some 10)) (PyBool true) = Ok r) /\
  (exists b, to_python (H := sample_host) BooleanField (PyList []) = Ok (PyBool b)) /\
  to_python (H := sample_host) (IntField None None) (PyStr "x") = Raise ValueError /\
  to_python (H := sample_host) (StringField None (Some 5)) (PyStr e_acute)
    = Raise UnicodeDecodeError /\
  to_python (H := sample_host) (ListField (IntField None None))
    (PyList ([PyInt 1] ++ PyNone :: [PyInt 3])) = Raise TypeError.
Proof.
  destruct (to_python_total_on_own_kind (H := sample_host))
    as (Hkind & Hbool & _ & Hnone & Htext & Hbytes & _ & Hfirst & _).
  split; [apply Hkind; reflexivity|].
  split; [apply Hbool; discriminate|].
  split; [apply (Htext None None None None (PyStr "x") _ ValueError eq_refl); reflexivity|].
  split; [apply Hbytes; reflexivity|].
  apply Hfirst.
  - repeat constructor. exists (PyInt 1). reflexivity.
  - apply (Hnone None None None None PyNone). reflexivity.
Defined.

(** C4, as the spec states it, fails: [int(None)] and [float(None)] raise
    [TypeError], a byte string with a non-ascii byte cannot be decoded, and
    an integer cannot be iterated over. *)
Lemma to_python_raises :
  to_python (H := sample_host) (IntField None None) PyNone = Raise TypeError /\
  to_python (H := sample_host) (FloatField None None) PyNone = Raise TypeError /\
  to_python (H := sample_host) (StringField None None) (PyStr e_acute)
    = Raise UnicodeDecodeError /\
  to_python (H := sample_host) (ListField BooleanField) (PyInt 5) = Raise TypeError.
Proof.
  repeat split.
Defined.

Lemma scalar_round_trip_witness :
  exists r,
    (m <- to_mongo (H := sample_host) (IntField (Some 0) (Some 10)) (PyBool true) ;;
     to_python (H := sample_host) (IntField (Some 0) (Some 10)) m) = Ok r /\
    scalar_eq r (PyBool true) = true.
Proof.
  apply (scalar_round_trip (H := sample_host) (IntField (Some 0) (Some 10)) (PyBool true));
    reflexivity.
Defined.

(** C5, as the spec states it, fails: a text field without constraints
    accepts the one-byte string 0xE9, its encoding is the string itself, and
    decoding that raises [UnicodeDecodeError]. *)
Lemma scalar_round_trip_fails_on_bytes :
  validate (H := sample_host) (StringField None None) (PyStr e_acute) = Ok tt /\
  to_mongo (H := sample_host) (StringField None None) (PyStr e_acute) = Ok (PyStr e_acute) /\
  (m <- to_mongo (H := sample_host) (StringField None None) (PyStr e_acute) ;;
   to_python (H := sample_host) (StringField None None) m) = Raise UnicodeDecodeError.
Proof.
  repeat split.
Defined.

(** A NaN passes every bound, survives the round trip unchanged, and is not
    equal to itself. *)
Lemma scalar_round_trip_NaN :
  validate (H := sample_host) (FloatField (Some 0%float) (Some 1%float)) (PyFloat nan) = Ok tt /\
  (m <- to_mongo (H := sample_host) (FloatField (Some 0%float) (Some 1%float)) (PyFloat nan) ;;
   to_python (H := sample_host) (FloatField (Some 0%float) (Some 1%float)) m)
    = Ok (PyFloat nan) /\
  scalar_eq (PyFloat nan) (PyFloat nan) = false.
Proof.
  repeat split.
Qed.

(** ** List fields: element-wise behaviour *)

Lemma sequence_items_isinstance (v : pyval) (items : list pyval) :
  sequence_items v = Some items -> isinstance v [TList; TTuple] = true.
Proof.
  destruct v; try discriminate; reflexivity.
Qed.

Lemma isinstance_sequence_items (v : pyval) :
  isinstance v [TList; TTuple] = true -> exists items, sequence_items v = Some items.
Proof.
  by_kind v.
Qed.

Section ListElements.
Context `{!Host}.

Lemma py_iter_sequence (v : pyval) (items : list pyval) :
  sequence_items v = Some items -> py_iter v = Ok items.
Proof.
  destruct v; try discriminate; now intros [= ->].
Qed.

(** X1. A list field accepts exactly the lists and tuples all of whose
    elements the inner field accepts; the empty sequence is among them. *)
Theorem ListField_validate_accepts_iff (f : field) (value : pyval) :
  validate (ListField f) value = Ok tt <->
  exists items, sequence_items value = Some items /\
                Forall (fun item => validate f item = Ok tt) items.
Proof.
  cbn [validate]. split.
  - destruct (isinstance value [TList; TTuple]) eqn:K; cbn [negb raise_if bind];
      [|discriminate].
    destruct (isinstance_sequence_items _ K) as [items E].
    rewrite (py_iter_sequence _ _ E). cbn [bind].
    destruct (comprehension (validate f) items) as [done|e] eqn:C; [|discriminate].
    intros _. exists items. split; [assumption|].
    apply comprehension_Ok_Forall2 in C. clear E K.
    induction C as [|x [] xs ys Hx _ IH]; constructor; assumption.
  - intros (items & E & A).
    rewrite (sequence_items_isinstance _ _ E), (py_iter_sequence _ _ E).
    cbn [negb raise_if bind].
    assert (comprehension (validate f) items = Ok (map (fun _ => tt) items)) as ->.
    { apply comprehension_Ok_Forall2. clear E.
      induction A; simpl; constructor; assumption. }
    reflexivity.
Qed.

(** X2. Whatever the inner field, and however deep list fields are nested,
    the only exceptions a list field's [validate] raises are the two
    [ValidationError]s of its own: an [AssertionError] of an element never
    gets out. *)
Theorem ListField_validate_raises_own_errors (f : field) (value : pyval) (e : exn) :
  validate (ListField f) value = Raise e ->
  e = ValidationError not_a_list_msg \/ e = ValidationError bad_items_msg.
Proof.
  cbn [validate].
  destruct (isinstance value [TList; TTuple]); cbn [negb raise_if bind].
  - destruct (py_iter value) as [items|e']; cbn [bind try_except_raise].
    + destruct (comprehension (validate f) items); cbn [bind try_except_raise];
        [discriminate | intros [= <-]; now right].
    + intros [= <-]. now right.
  - intros [= <-]. now left.
Qed.

(** X3. Encoding a list or tuple with a list field encodes every element
    with the inner field, in order: the result is a list (also for a tuple)
    of the same length whose element at each position is the encoding of the
    element at that position. *)
Theorem ListField_to_mongo_elementwise (f : field) (value r : pyval) (items : list pyval) :
  sequence_items value = Some items ->
  (to_mongo (ListField f) value = Ok r <->
   exists out, r = PyList out /\ Forall2 (fun x y => to_mongo f x = Ok y) items out).
Proof.
  intros E. cbn [to_mongo]. rewrite (py_iter_sequence _ _ E). cbn [bind]. split.
  - destruct (comprehension (to_mongo f) items) as [out|e] eqn:C; cbn [bind];
      [|discriminate].
    intros [= <-]. exists out. split; [reflexivity|]. now apply comprehension_Ok_Forall2.
  - intros (out & -> & F). apply comprehension_Ok_Forall2 in F. now rewrite F.
Qed.

(** X4. Normalising a list or tuple with a list field normalises every
    element with the inner field, in order, into a list of the same
    length. *)
Theorem ListField_to_python_elementwise (f : field) (value r : pyval) (items : list pyval) :
  sequence_items value = Some items ->
  (to_python (ListField f) value = Ok r <->
   exists out, r = PyList out /\ Forall2 (fun x y => to_python f x = Ok y) items out).
Proof.
  intros E. cbn [to_python]. rewrite (py_iter_sequence _ _ E). cbn [bind]. split.
  - destruct (comprehension (to_python f) items) as [out|e] eqn:C; cbn [bind];
      [|discriminate].
    intros [= <-]. exists out. split; [reflexivity|]. now apply comprehension_Ok_Forall2.
  - intros (out & -> & F). apply comprehension_Ok_Forall2 in F. now rewrite F.
Qed.

(** X5. When an element cannot be encoded, [ListField.to_mongo] raises the
    exception of the first such element unchanged (unlike [validate], it
    does not replace it), and elements after it are not looked at. *)
Theorem ListField_to_mongo_first_failure
    (f : field) (before after : list pyval) (x : pyval) (e : exn) :
  Forall (fun item => exists y, to_mongo f item = Ok y) before ->
  to_mongo f x = Raise e ->
  to_mongo (ListField f) (PyList (before ++ x :: after)) = Raise e.
Proof.
  intros A Fx. cbn [to_mongo py_iter bind].
  assert (exists done, comprehension (to_mongo f) before = Ok done) as [done C].
  { induction A as [|b rest [y Hy] _ [done IH]]; simpl; [eauto|].
    rewrite Hy, IH. simpl. eauto. }
  now rewrite (comprehension_first_failure _ _ _ after _ _ C Fx).
Qed.

(** X6. The query value of an element of a list is one of the elements of
    the stored list: whatever [to_mongo] stored for a list, the value
    [prepare_query_value] makes for one of its items is found in it. *)
Theorem ListField_query_value_is_stored
    (f : field) (items out : list pyval) (item : pyval) :
  to_mongo (ListField f) (PyList items) = Ok (PyList out) ->
  In item items ->
  exists q, ListField_prepare_query_value f item = Ok q /\ In q out.
Proof.
  cbn [to_mongo py_iter bind]. unfold ListField_prepare_query_value.
  destruct (comprehension (to_mongo f) items) as [out'|e] eqn:C; cbn [bind];
    [|discriminate].
  intros [= <-]. apply comprehension_Ok_Forall2 in C.
  induction C as [|x y xs ys Hxy _ IH]; simpl; [contradiction|].
  intros [<- | I]; [eauto|]. destruct (IH I) as (q & Hq & Iq). eauto.
Qed.

End ListElements.

(** ** Member lookup *)

(** X7. Member lookup goes through any number of list fields to the field
    they wrap: around an embedded-document or reference field it answers
    what the wrapped class declares under that name ([None] for a name it
    does not declare), around a string field it answers [None]. *)
Theorem lookup_member_through_lists
    (class_fields : pyclass -> gmap string field)
    (inherited : field -> string -> result (option field))
    (n : nat) (member_name : string) :
  (forall document,
     lookup_member class_fields inherited (nested n (EmbeddedDocumentField document))
       member_name = Ok (class_fields document !! member_name)) /\
  (forall document_type,
     lookup_member class_fields inherited (nested n (ReferenceField document_type))
       member_name = Ok (class_fields document_type !! member_name)) /\
  (forall regex max_length,
     lookup_member class_fields inherited (nested n (StringField regex max_length))
       member_name = Ok None).
Proof.
  induction n as [|n (IHe & IHr & IHs)]; [repeat split|].
  split; [|split]; intros; cbn [nested lookup_member]; auto.
Qed.

(** ** Reference tokens *)

Section ReferenceTokens.
Context `{!Host}.

Lemma ReferenceField_to_mongo_shape (document_type : pyclass) (document token : pyval) :
  to_mongo (ReferenceField document_type) document = Ok token ->
  exists oid, token = PyDBRef (cls_collection document_type) (PyObjectId oid).
Proof.
  cbn [to_mongo]. unfold ReferenceField_to_mongo.
  destruct (if isinstance document [TStr; TUnicode; TObjectId] then _ else _) as [id_|e];
    cbn [bind]; [|discriminate].
  destruct (isinstance id_ [TObjectId]) eqn:K; cbn [negb bind].
  - apply isinstance_ObjectId in K as [oid ->]. intros [= <-]. eauto.
  - destruct (ObjectId_new id_) as [oid|e]; cbn [bind]; [|discriminate].
    intros [= <-]. eauto.
Qed.

Lemma ReferenceField_to_mongo_DBRef (document_type : pyclass) (c oid : string) :
  to_mongo (ReferenceField document_type) (PyDBRef c (PyObjectId oid)) =
    Ok (PyDBRef (cls_collection document_type) (PyObjectId oid)).
Proof.
  reflexivity.
Qed.

(** X8. Encoding is idempotent: a token that [ReferenceField.to_mongo]
    returned is encoded to itself, without a call of the [ObjectId]
    constructor; and a token of any other collection is re-targeted, keeping
    its [ObjectId] and taking the field's own collection. *)
Theorem ReferenceField_to_mongo_idempotent
    (document_type : pyclass) (document token : pyval) :
  to_mongo (ReferenceField document_type) document = Ok token ->
  to_mongo (ReferenceField document_type) token = Ok token /\
  (forall c, exists oid,
     token = PyDBRef (cls_collection document_type) (PyObjectId oid) /\
     to_mongo (ReferenceField document_type) (PyDBRef c (PyObjectId oid)) = Ok token).
Proof.
  intros E. destruct (ReferenceField_to_mongo_shape _ _ _ E) as [oid ->].
  split; [apply ReferenceField_to_mongo_DBRef|].
  intros c. exists oid. split; [reflexivity | apply ReferenceField_to_mongo_DBRef].
Qed.

(** X9. Every token [ReferenceField.to_mongo] returns is a value the same
    field's [validate] accepts. *)
Theorem ReferenceField_validate_accepts_token
    (document_type : pyclass) (document token : pyval) :
  to_mongo (ReferenceField document_type) document = Ok token ->
  validate (ReferenceField document_type) token = Ok tt.
Proof.
  intros E. destruct (ReferenceField_to_mongo_shape _ _ _ E) as [oid ->].
  reflexivity.
Qed.

(** X10. The only ways [ReferenceField.to_mongo] fails: the argument has no
    [id] attribute ([AttributeError]), its [id] is [None] (the
    unsaved-document [ValidationError]), or the [ObjectId] constructor
    rejects the identifier and its exception comes out unchanged. *)
Theorem ReferenceField_to_mongo_failures
    (document_type : pyclass) (document : pyval) (e : exn) :
  to_mongo (ReferenceField document_type) document = Raise e ->
  (getattr_id document = Raise e /\ e = AttributeError) \/
  (getattr_id document = Ok PyNone /\ e = ValidationError unsaved_msg) \/
  (exists i, ObjectId_new i = Raise e /\
             (i = document \/ getattr_id document = Ok i)).
Proof.
  cbn [to_mongo]. unfold ReferenceField_to_mongo.
  destruct (isinstance document [TStr; TUnicode; TObjectId]) eqn:K; cbn [bind].
  - destruct (isinstance document [TObjectId]); cbn [negb bind]; [discriminate|].
    destruct (ObjectId_new document) as [oid|e'] eqn:N; cbn [bind]; [discriminate|].
    intros [= <-]. right. right. eauto.
  - destruct (getattr_id document) as [i|e'] eqn:G; cbn [bind].
    + destruct (is_None i) eqn:Ni; cbn [raise_if bind].
      * intros [= <-]. right. left. destruct i; try discriminate Ni. auto.
      * destruct (isinstance i [TObjectId]); cbn [negb bind]; [discriminate|].
        destruct (ObjectId_new i) as [oid|e'] eqn:N; cbn [bind]; [discriminate|].
        intros [= <-]. right. right. eauto.
    + intros [= <-]. left. split; [reflexivity|].
      destruct document; simpl in G; try (injection G as <-; reflexivity);
        try discriminate G.
      match type of G with
      | context [assoc ?k ?d] =>
          destruct (assoc k d); [discriminate G | injection G as <-; reflexivity]
      end.
Qed.

End ReferenceTokens.

(** ** Reads of a reference attribute: what they leave alone *)

Section DescriptorFrame.
Context `{!Host}.

(** X11. A read of a reference attribute never touches another slot of the
    instance; it asks the storage handle at most once, and exactly once
    (for the token in the slot) when the slot holds a token; when the slot
    holds no token the instance and the query log are left as they were. *)
Theorem ReferenceField_get_frame
    (db : database) (name : string) (document_type : pyclass) (w w' : world)
    (r : result got) :
  ReferenceField_get db name document_type (Some w) = (r, Some w') ->
  let slot := dict_get (data w) name in
  (forall k, k <> name -> data w' !! k = data w !! k) /\
  (isinstance slot [TDBRef] = true -> lookups w' = (lookups w ++ [slot])%list) /\
  (isinstance slot [TDBRef] = false -> w' = w).
Proof.
  destruct w as [d l].
  unfold ReferenceField_get, ReferenceField_get_instance. cbn [data lookups].
  destruct (isinstance (dict_get d name) [TDBRef]) eqn:K.
  - destruct (is_None (db (dict_get d name))); cbn [negb].
    + intros [= <- <-]. cbn [data lookups]. repeat split; congruence.
    + destruct (from_son document_type (db (dict_get d name))) as [inst|e].
      * intros [= <- <-]. cbn [data lookups]. repeat split; try congruence.
        intros k Hk. now rewrite lookup_insert_ne.
      * intros [= <- <-]. cbn [data lookups]. repeat split; congruence.
  - intros [= <- <-]. repeat split; congruence.
Qed.

(** X12. A slot that holds a token holds, after a read, either the same
    token or a document instance: a read never empties the slot and never
    stores anything else in it. *)
Theorem ReferenceField_get_slot_token_or_document
    (db : database) (name : string) (document_type : pyclass) (w w' : world)
    (r : result got) (ref : pyval) :
  data w !! name = Some ref ->
  isinstance ref [TDBRef] = true ->
  ReferenceField_get db name document_type (Some w) = (r, Some w') ->
  data w' !! name = Some ref \/ exists c d, data w' !! name = Some (PyDoc c d).
Proof.
  intros E K. destruct w as [d l]. cbn [data] in E.
  unfold ReferenceField_get, ReferenceField_get_instance, dict_get. cbn [data lookups].
  rewrite E. cbn [from_option id]. rewrite K.
  destruct (is_None (db ref)); cbn [negb].
  - intros [= <- <-]. now left.
  - destruct (from_son document_type (db ref)) as [inst|e].
    + intros [= <- <-]. right. exists (fst inst), (snd inst). cbn [data].
      apply lookup_insert_eq.
    + intros [= <- <-]. now left.
Qed.

(** X13. When the handle finds the stored mapping but building the document
    from it raises, the exception comes out of the read, the slot still
    holds the token and the lookup has been made: the next read starts
    over. *)
Theorem ReferenceField_get_from_son_raises
    (db : database) (name : string) (document_type : pyclass) (w : world)
    (ref : pyval) (e : exn) :
  data w !! name = Some ref ->
  isinstance ref [TDBRef] = true ->
  is_None (db ref) = false ->
  from_son document_type (db ref) = Raise e ->
  ReferenceField_get db name document_type (Some w) =
    (Raise e, Some (World (data w) (lookups w ++ [ref]))).
Proof.
  intros E K N F. destruct w as [d l]. cbn [data] in E.
  unfold ReferenceField_get, ReferenceField_get_instance, dict_get. cbn [data lookups].
  rewrite E. cbn [from_option id]. rewrite K, N. cbn [negb]. rewrite F. reflexivity.
Qed.

End DescriptorFrame.

(** ** Scalar fields: normalised values and edge cases of the bounds *)

Lemma SFcompare_refl (a : spec_float) :
  a <> S754_nan -> SFcompare a a = Some Eq.
Proof.
  destruct a as [s|s| |s m e]; simpl; try congruence; intros _.
  - destruct s; reflexivity.
  - rewrite Z.compare_refl. fold (Pos.compare m m). rewrite Pos.compare_refl.
    destruct s; reflexivity.
Qed.

Lemma float_NaN_unordered (x y : float) :
  PrimFloat.eqb x x = false ->
  PrimFloat.ltb x y = false /\ PrimFloat.ltb y x = false.
Proof.
  rewrite FloatAxioms.eqb_spec, !FloatAxioms.ltb_spec. unfold SFeqb, SFltb.
  intros E.
  assert (Prim2SF x = S754_nan) as ->.
  { destruct (Prim2SF x) as [s|s| |s m e] eqn:P; try reflexivity;
      rewrite SFcompare_refl in E; congruence. }
  split; [reflexivity|]. now destruct (Prim2SF y).
Qed.

Section ScalarEdges.
Context `{!Host}.

Lemma to_python_coerced_shape (f : field) (v r : pyval) :
  coerces f = true ->
  to_python f v = Ok r ->
  match f with
  | StringField _ _ => exists u, r = PyUnicode u
  | IntField _ _ => exists n, r = PyInt n
  | FloatField _ _ => exists x, r = PyFloat x
  | _ => exists b, r = PyBool b
  end.
Proof.
  intros C. destruct f; try discriminate C; clear C; cbn [to_python].
  - unfold py_unicode.
    destruct v; try (destruct (unicode_of_object _); cbn [bind];
                     [intros [= <-]; eauto | discriminate]).
    + destruct (is_ascii s); [intros [= <-]; eauto | discriminate].
    + intros [= <-]. eauto.
  - unfold py_int. destruct v; try discriminate; try (intros [= <-]; eauto).
    + destruct (int_of_float x); cbn [bind]; [intros [= <-]; eauto | discriminate].
    + destruct (int_of_text _); cbn [bind]; [intros [= <-]; eauto | discriminate].
    + destruct (int_of_text _); cbn [bind]; [intros [= <-]; eauto | discriminate].
  - unfold py_float. destruct v; try discriminate; try (intros [= <-]; eauto);
      match goal with
      | |- context [bind ?m _] =>
          destruct m; cbn [bind]; [intros [= <-]; eauto | discriminate]
      end.
  - destruct (py_bool v); cbn [bind]; [intros [= <-]; eauto | discriminate].
Qed.

(** X14. A value that [to_python] of a string, integer, float or boolean
    field returns is an instance of the field's kind: validating a
    normalised value never fails the kind assertion, it can only fail a
    configured constraint. *)
Theorem to_python_result_is_of_kind (f : field) (v r : pyval) :
  coerces f = true ->
  to_python f v = Ok r ->
  isinstance r (canonical_types f) = true /\
  validate f r <> Raise AssertionError.
Proof.
  intros C R. pose proof (to_python_coerced_shape f v r C R) as S.
  destruct f; try discriminate C; destruct S as [x ->].
  - split; [reflexivity|].
    rewrite (StringField_validate_eq _ _ (PyUnicode x) x eq_refl).
    destruct (exceeds _ _); [discriminate|]. destruct (mismatches _ _); discriminate.
  - assert (isinstance (PyInt x) [TInt; TLong] = true) as K
      by (apply isinstance_int; eauto).
    split; [exact K|]. rewrite (IntField_validate_eq _ _ _ K).
    destruct (int_below _ _); [discriminate|]. destruct (int_above _ _); discriminate.
  - split; [reflexivity|]. rewrite FloatField_validate_eq.
    destruct (float_below _ _); [discriminate|]. destruct (float_above _ _); discriminate.
  - split; [reflexivity | discriminate].
Qed.

(** X15. Normalising is idempotent for the string, integer, float and
    boolean fields: a value [to_python] returned is returned unchanged when
    it is normalised again. *)
Theorem to_python_idempotent (f : field) (v r : pyval) :
  coerces f = true ->
  to_python f v = Ok r ->
  to_python f r = Ok r.
Proof.
  intros C R. pose proof (to_python_coerced_shape f v r C R) as S.
  destruct f; try discriminate C; destruct S as [x ->]; reflexivity.
Qed.

(** X16. An integer field accepts exactly the integers and booleans that
    are neither below its minimum nor above its maximum; a field whose
    minimum exceeds its maximum therefore accepts no value at all. *)
Theorem IntField_validate_accepts_iff
    (min_value max_value : option Z) (value : pyval) :
  (validate (IntField min_value max_value) value = Ok tt <->
   isinstance value [TInt; TLong] = true /\
   (forall m, min_value = Some m -> m <= int_value value) /\
   (forall m, max_value = Some m -> int_value value <= m)) /\
  (forall lo hi, min_value = Some lo -> max_value = Some hi -> hi < lo ->
     validate (IntField min_value max_value) value <> Ok tt).
Proof.
  assert (validate (IntField min_value max_value) value = Ok tt <->
          isinstance value [TInt; TLong] = true /\
          (forall m, min_value = Some m -> m <= int_value value) /\
          (forall m, max_value = Some m -> int_value value <= m)) as Q.
  { split.
    - intros V. destruct (isinstance value [TInt; TLong]) eqn:K;
        [|cbn [validate] in V; rewrite K in V; discriminate V].
      rewrite (IntField_validate_eq _ _ _ K) in V.
      destruct (int_below _ _) eqn:B; [discriminate|].
      destruct (int_above _ _) eqn:A; [discriminate|].
      repeat split.
      + intros m ->. simpl in B. lia.
      + intros m ->. simpl in A. lia.
    - intros (K & Hmin & Hmax). rewrite (IntField_validate_eq _ _ _ K).
      assert (int_below min_value (int_value value) = false) as ->.
      { destruct min_value as [m|]; [|reflexivity]. simpl. specialize (Hmin m eq_refl). lia. }
      assert (int_above max_value (int_value value) = false) as ->.
      { destruct max_value as [m|]; [|reflexivity]. simpl. specialize (Hmax m eq_refl). lia. }
      reflexivity. }
  split; [exact Q|].
  intros lo hi Hlo Hhi Inv V. apply Q in V as (_ & Hmin & Hmax).
  specialize (Hmin lo Hlo). specialize (Hmax hi Hhi). lia.
Qed.

(** X17. A NaN passes the range check of every float field, whatever its
    bounds; and a bound that is a NaN rejects no float. *)
Theorem FloatField_validate_NaN (min_value max_value : option float) (x : float) :
  (PrimFloat.eqb x x = false ->
     validate (FloatField min_value max_value) (PyFloat x) = Ok tt) /\
  (forall lo hi, min_value = Some lo -> max_value = Some hi ->
     PrimFloat.eqb lo lo = false -> PrimFloat.eqb hi hi = false ->
     validate (FloatField min_value max_value) (PyFloat x) = Ok tt).
Proof.
  rewrite FloatField_validate_eq. split.
  - intros N.
    assert (float_below min_value x = false) as ->
      by (destruct min_value as [m|]; [apply (float_NaN_unordered x m N) | reflexivity]).
    assert (float_above max_value x = false) as ->
      by (destruct max_value as [m|]; [apply (float_NaN_unordered x m N) | reflexivity]).
    reflexivity.
  - intros lo hi -> -> Nlo Nhi. simpl.
    rewrite (proj2 (float_NaN_unordered lo x Nlo)).
    now rewrite (proj1 (float_NaN_unordered hi x Nhi)).
Qed.

(** X18. An embedded-document field accepts exactly the instances of
    classes that have the declared class on their method-resolution order;
    anything else (a plain mapping too) is rejected with a
    [ValidationError], not an [AssertionError]. *)
Theorem EmbeddedDocumentField_validate_accepts_iff (document : pyclass) (value : pyval) :
  (validate (EmbeddedDocumentField document) value = Ok tt <->
   exists c d, value = PyDoc c d /\ cls_name document ∈ cls_mro c) /\
  (validate (EmbeddedDocumentField document) value = Ok tt \/
   validate (EmbeddedDocumentField document) value
     = Raise (ValidationError bad_embedded_msg)).
Proof.
  cbn [validate]. split.
  - split.
    + destruct value; unfold isinstance; simpl;
        try match goal with
            | |- context [(?a <=? ?b) && ?c] => destruct ((a <=? b) && c)
            end; simpl; try discriminate.
      rewrite orb_false_r. destruct (bool_decide _) eqn:B; [|discriminate].
      intros _. apply bool_decide_eq_true in B. eauto.
    + intros (c & d & -> & M). unfold isinstance. simpl.
      now rewrite (bool_decide_eq_true_2 _ M).
  - destruct (isinstance value [TClass document]); auto.
Qed.

(** X19. A value an embedded-document field accepts is returned unchanged
    by its [to_python]: [_from_son] is consulted only for values that are
    not yet instances. *)
Theorem EmbeddedDocumentField_to_python_accepted (document : pyclass) (value : pyval) :
  validate (EmbeddedDocumentField document) value = Ok tt ->
  to_python (EmbeddedDocumentField document) value = Ok value.
Proof.
  cbn [validate to_python].
  destruct (isinstance value [TClass document]); [reflexivity | discriminate].
Qed.

End ScalarEdges.

(** ** Examples for the properties above *)

Lemma ListField_validate_raises_own_errors_witness :
  ValidationError bad_items_msg = ValidationError not_a_list_msg \/
  ValidationError bad_items_msg = ValidationError bad_items_msg.
Proof.
  apply (ListField_validate_raises_own_errors (H := sample_host)
           (ListField (IntField None None))
           (PyList [PyList [PyInt 1]; PyList [PyStr "x"]])).
  reflexivity.
Defined.

Lemma ListField_to_mongo_elementwise_witness :
  to_mongo (H := sample_host) (ListField (ReferenceField Author))
    (PyTuple [PyStr sample_oid; ann]) = Ok (PyList [sample_token; sample_token]).
Proof.
  apply (ListField_to_mongo_elementwise (H := sample_host) (ReferenceField Author)
           (PyTuple [PyStr sample_oid; ann]) _ [PyStr sample_oid; ann] eq_refl).
  exists [sample_token; sample_token]. split; [reflexivity|].
  repeat constructor.
Defined.

Lemma ListField_to_python_elementwise_witness :
  to_python (H := sample_host) (ListField (IntField None None))
    (PyList [PyStr "42"; PyBool true; PyFloat 2.5%float])
    = Ok (PyList [PyInt 42; PyInt 1; PyInt 2]).
Proof.
  apply (ListField_to_python_elementwise (H := sample_host) (IntField None None)
           (PyList [PyStr "42"; PyBool true; PyFloat 2.5%float]) _
           [PyStr "42"; PyBool true; PyFloat 2.5%float] eq_refl).
  exists [PyInt 42; PyInt 1; PyInt 2]. split; [reflexivity|].
  repeat constructor.
Defined.

Lemma ListField_to_mongo_first_failure_witness :
  to_mongo (H := sample_host) (ListField (ReferenceField Author))
    (PyList ([PyStr sample_oid; ann] ++ PyNone :: [PyStr "short"])) = Raise AttributeError.
Proof.
  apply (ListField_to_mongo_first_failure (H := sample_host) (ReferenceField Author)
           [PyStr sample_oid; ann] [PyStr "short"] PyNone AttributeError).
  - repeat constructor; exists sample_token; reflexivity.
  - reflexivity.
Defined.

Lemma ListField_query_value_is_stored_witness :
  exists q,
    ListField_prepare_query_value (H := sample_host) (ReferenceField Author) ann = Ok q /\
    In q [sample_token; sample_token].
Proof.
  apply (ListField_query_value_is_stored (H := sample_host) (ReferenceField Author)
           [PyStr sample_oid; ann] [sample_token; sample_token] ann).
  - reflexivity.
  - right. left. reflexivity.
Defined.

Lemma ReferenceField_to_mongo_idempotent_witness :
  to_mongo (H := sample_host) (ReferenceField Author) sample_token = Ok sample_token /\
  (forall c, exists oid,
     sample_token = PyDBRef (cls_collection Author) (PyObjectId oid) /\
     to_mongo (H := sample_host) (ReferenceField Author) (PyDBRef c (PyObjectId oid))
       = Ok sample_token).
Proof.
  apply (ReferenceField_to_mongo_idempotent (H := sample_host) Author (PyStr sample_oid)).
  reflexivity.
Defined.

Lemma ReferenceField_validate_accepts_token_witness :
  validate (H := sample_host) (ReferenceField Author) sample_token = Ok tt.
Proof.
  apply (ReferenceField_validate_accepts_token (H := sample_host) Author ann).
  reflexivity.
Defined.

Lemma ReferenceField_to_mongo_failures_witness :
  (getattr_id (PyStr "short") = Raise InvalidId /\ InvalidId = AttributeError) \/
  (getattr_id (PyStr "short") = Ok PyNone /\ InvalidId = ValidationError unsaved_msg) \/
  (exists i, ObjectId_new (Host := sample_host) i = Raise InvalidId /\
             (i = PyStr "short" \/ getattr_id (PyStr "short") = Ok i)).
Proof.
  apply (ReferenceField_to_mongo_failures (H := sample_host) Author (PyStr "short")).
  reflexivity.
Defined.

Lemma ReferenceField_get_frame_witness :
  (forall k, k <> "author" ->
     <["author" := ann]> (data sample_book) !! k = data sample_book !! k) /\
  (isinstance (dict_get (data sample_book) "author") [TDBRef] = true ->
     [sample_token] = ([] ++ [dict_get (data sample_book) "author"])%list) /\
  (isinstance (dict_get (data sample_book) "author") [TDBRef] = false ->
     World (<["author" := ann]> (data sample_book)) [sample_token] = sample_book).
Proof.
  exact (ReferenceField_get_frame (H := sample_host) sample_db "author" Author sample_book
           (World (<["author" := ann]> (data sample_book)) [sample_token])
           (Ok (GotValue ann)) eq_refl).
Defined.

Lemma ReferenceField_get_slot_token_or_document_witness :
  <["author" := ann]> (data sample_book) !! "author" = Some sample_token \/
  exists c d, <["author" := ann]> (data sample_book) !! "author" = Some (PyDoc c d).
Proof.
  exact (ReferenceField_get_slot_token_or_document (H := sample_host) sample_db "author"
           Author sample_book
           (World (<["author" := ann]> (data sample_book)) [sample_token])
           (Ok (GotValue ann)) sample_token eq_refl eq_refl eq_refl).
Defined.

Lemma ReferenceField_get_from_son_raises_witness :
  ReferenceField_get (H := failing_host) sample_db "author" Author (Some sample_book) =
    (Raise TypeError, Some (World (data sample_book) [sample_token])).
Proof.
  apply (ReferenceField_get_from_son_raises (H := failing_host) sample_db "author" Author
           sample_book sample_token TypeError); reflexivity.
Defined.

Lemma to_python_result_is_of_kind_witness :
  isinstance (PyInt 42) (canonical_types (IntField (Some 0) (Some 10))) = true /\
  validate (H := sample_host) (IntField (Some 0) (Some 10)) (PyInt 42) <> Raise AssertionError.
Proof.
  apply (to_python_result_is_of_kind (H := sample_host) (IntField (Some 0) (Some 10))
           (PyStr "42") (PyInt 42)); reflexivity.
Defined.

Lemma to_python_idempotent_witness :
  to_python (H := sample_host) (StringField None (Some 3)) (PyUnicode [104; 105]%N)
    = Ok (PyUnicode [104; 105]%N).
Proof.
  apply (to_python_idempotent (H := sample_host) (StringField None (Some 3))
           (PyStr "hi") (PyUnicode [104; 105]%N)); reflexivity.
Defined.

Lemma EmbeddedDocumentField_to_python_accepted_witness :
  to_python (H := failing_host) (EmbeddedDocumentField Address)
    (PyDoc Address [("city", PyStr "Oslo")]) = Ok (PyDoc Address [("city", PyStr "Oslo")]).
Proof.
  apply (EmbeddedDocumentField_to_python_accepted (H := failing_host) Address
           (PyDoc Address [("city", PyStr "Oslo")])).
  reflexivity.
Defined.

(** ** Reference fields inside lists, and what validation asks for *)

Section ReferenceLists.
Context `{!Host}.

(** X20. A bare identifier, text or [ObjectId], is accepted by
    [ReferenceField.to_mongo] as its argument but rejected by the same
    field's [validate], with an [AssertionError]: [validate] wants a
    document instance or a token. *)
Theorem ReferenceField_validate_rejects_bare_identifier
    (document_type : pyclass) (value : pyval) :
  isinstance value [TStr; TUnicode; TObjectId] = true ->
  validate (ReferenceField document_type) value = Raise AssertionError.
Proof.
  cbn [validate]. by_kind value.
Qed.

(** X21. A list of references is stored as a list of tokens: every element
    of what [to_mongo] of a list field around a reference field returns
    pairs the target collection with an [ObjectId]. *)
Theorem ListField_ReferenceField_to_mongo_tokens
    (document_type : pyclass) (value : pyval) (out : list pyval) :
  to_mongo (ListField (ReferenceField document_type)) value = Ok (PyList out) ->
  Forall (fun token =>
            exists oid, token = PyDBRef (cls_collection document_type) (PyObjectId oid))
         out.
Proof.
  cbn [to_mongo]. destruct (py_iter value) as [items|e]; cbn [bind]; [|discriminate].
  fold (to_mongo (ReferenceField document_type)).
  destruct (comprehension (to_mongo (ReferenceField document_type)) items)
    as [out'|e] eqn:C; cbn [bind]; [|discriminate].
  intros [= <-]. apply comprehension_Ok_Forall2 in C.
  induction C as [|x y xs ys Hxy _ IH]; constructor; [|assumption].
  exact (ReferenceField_to_mongo_shape _ _ _ Hxy).
Qed.

(** X22. Whatever iterable it is given, what [ListField.to_python] returns
    is a list, so validating it never fails the sequence test: the only
    failure left is that of an element. *)
Theorem ListField_to_python_result_is_list (f : field) (value r : pyval) :
  to_python (ListField f) value = Ok r ->
  (exists out, r = PyList out) /\
  validate (ListField f) r <> Raise (ValidationError not_a_list_msg).
Proof.
  cbn [to_python]. destruct (py_iter value) as [items|e]; cbn [bind]; [|discriminate].
  destruct (comprehension (to_python f) items) as [out|e]; cbn [bind]; [|discriminate].
  intros [= <-]. split; [eauto|].
  intros V.
  cbn [validate] in V. unfold isinstance in V. simpl in V.
  destruct (comprehension (validate f) out); simpl in V; discriminate V.
Qed.

End ReferenceLists.

Lemma ReferenceField_validate_rejects_bare_identifier_witness :
  validate (H := sample_host) (ReferenceField Author) (PyObjectId sample_oid)
    = Raise AssertionError.
Proof.
  apply (ReferenceField_validate_rejects_bare_identifier (H := sample_host) Author
           (PyObjectId sample_oid)).
  reflexivity.
Defined.

Lemma ListField_ReferenceField_to_mongo_tokens_witness :
  Forall (fun token =>
            exists oid, token = PyDBRef (cls_collection Author) (PyObjectId oid))
         [sample_token; sample_token].
Proof.
  apply (ListField_ReferenceField_to_mongo_tokens (H := sample_host) Author
           (PyTuple [PyStr sample_oid; ann])).
  reflexivity.
Defined.

Lemma ListField_to_python_result_is_list_witness :
  (exists out, PyList [PyBool true; PyBool false] = PyList out) /\
  validate (H := sample_host) (ListField BooleanField) (PyList [PyBool true; PyBool false])
    <> Raise (ValidationError not_a_list_msg).
Proof.
  apply (ListField_to_python_result_is_list (H := sample_host) BooleanField
           (PyDict [(PyStr "a", PyInt 1); (PyStr EmptyString, PyInt 2)])).
  reflexivity.
Defined.

(** ** Dangling references: the state after repeated reads *)

Section DanglingState.
Context `{!Host}.

(** X23. While the handle finds nothing for the token in the slot, reads
    leave every slot of the instance as it is and dereference the token
    once each: after the reads the query log has grown by one lookup of
    that token per read. *)
Theorem ReferenceField_get_dangling_state
    (dbs : list database) (name : string) (document_type : pyclass) (w : world)
    (ref : pyval) :
  data w !! name = Some ref ->
  isinstance ref [TDBRef] = true ->
  Forall (fun db : database => is_None (db ref) = true) dbs ->
  snd (reads dbs name document_type (Some w)) =
    Some (World (data w) (lookups w ++ map (fun _ => ref) dbs)).
Proof.
  intros E K A. revert w E. induction A as [|db rest N A IH]; intros w E.
  - destruct w. simpl. now rewrite app_nil_r.
  - cbn [reads]. rewrite (ReferenceField_get_dangling _ _ _ _ _ E K N).
    specialize (IH (World (data w) (lookups w ++ [ref])) E).
    destruct (reads rest name document_type _) as [rs final].
    cbn [snd data lookups] in *. rewrite IH. simpl. now rewrite <- app_assoc.
Qed.

End DanglingState.

Lemma ReferenceField_get_dangling_state_witness :
  snd (reads (H := sample_host) [empty_db; empty_db] "author" Author (Some sample_book)) =
    Some (World (data sample_book) [sample_token; sample_token]).
Proof.
  apply (ReferenceField_get_dangling_state (H := sample_host) [empty_db; empty_db]
           "author" Author sample_book sample_token).
  - reflexivity.
  - reflexivity.
  - repeat constructor.
Defined.
